(** * Jira-Slack agent: a shallow embedding of [agent.py]

    The agent is thin orchestration around three remote services (the chat
    platform, the issue tracker and the language model).  The embedding keeps
    the control flow of every method of [JiraSlackAgent] and replaces each
    remote service, the JSON decoder, the wall clock and [repr] by a field of
    a record [World].  Every call made to a service and every call made to the
    logger is appended to a trace, so that statements such as "no issue is
    created" become statements about the trace. *)

From Stdlib Require Import Ascii String QArith.
From stdpp Require Import base strings list gmap.

Set Warnings "-register-all".
Local Close Scope Q_scope.
Local Open Scope string_scope.
Local Open Scope list_scope.

(** ** Python values *)

(** Characters are code points below 256; a Python [str] is a [string]. *)

Definition dq : string := String "034"%char EmptyString.
Definition nl : string := String "010"%char EmptyString.

(** The values [json.loads] produces.  A number carries the exact rational
    value of the parsed [int] or finite [float]; Python compares such numbers
    by that value.  The non-finite floats are left out. *)
Inductive json : Type :=
| JNull
| JBool (b : bool)
| JNum (q : Q)
| JStr (s : string)
| JArr (l : list json)
| JObj (m : gmap string json).

(** Python truth value of a decoded object ([if x:], [x and y]). *)
Definition py_truthy (v : json) : bool :=
  match v with
  | JNull => false
  | JBool b => b
  | JNum q => negb (Qeq_bool q 0)
  | JStr s => negb (String.eqb s "")
  | JArr l => match l with [] => false | _ => true end
  | JObj m => negb (bool_decide (m = ∅))
  end.

(** Instances of Python's [Exception] that the agent can see; [str_exn] is
    [str(e)].  [KeyboardInterrupt], which is no [Exception] and arrives
    asynchronously, is left out. *)
Inductive exn : Type :=
| ValueError (msg : string)
| KeyError (key : string)
| TypeError (msg : string)
| AttributeError (msg : string)
| IndexError (msg : string)
| JSONDecodeError (msg : string)
| RemoteError (msg : string).

Definition str_exn (e : exn) : string :=
  match e with
  | ValueError m | TypeError m | AttributeError m | IndexError m
  | JSONDecodeError m | RemoteError m => m
  | KeyError k => "'" +:+ k +:+ "'"
  end.

Inductive result (A : Type) : Type :=
| Ok (a : A)
| Raise (e : exn).
Arguments Ok {A} a.
Arguments Raise {A} e.

(** ** Text operations of [str] *)

(** [str.isspace] on code points below 256. *)
Definition is_space (c : ascii) : bool :=
  let n := nat_of_ascii c in
  (((9 <=? n) && (n <=? 13)) || ((28 <=? n) && (n <=? 32))
   || (n =? 133) || (n =? 160))%nat.

Fixpoint py_lstrip (s : string) : string :=
  match s with
  | EmptyString => EmptyString
  | String c s' => if is_space c then py_lstrip s' else s
  end.

Fixpoint py_rstrip (s : string) : string :=
  match s with
  | EmptyString => EmptyString
  | String c s' =>
      match py_rstrip s' with
      | EmptyString => if is_space c then EmptyString else String c EmptyString
      | r => String c r
      end
  end.

(** [s.strip()] *)
Definition py_strip (s : string) : string := py_rstrip (py_lstrip s).

(** [s.startswith(p)] *)
Fixpoint py_startswith (p s : string) : bool :=
  match p with
  | EmptyString => true
  | String a p' =>
      match s with
      | EmptyString => false
      | String b s' => Ascii.eqb a b && py_startswith p' s'
      end
  end.

(** [s[n:]] and [s[:n]] for a non-negative [n]. *)
Fixpoint py_slice_from (n : nat) (s : string) : string :=
  match n, s with
  | S k, String _ s' => py_slice_from k s'
  | _, _ => s
  end.

Fixpoint py_slice_to (n : nat) (s : string) : string :=
  match n, s with
  | S k, String c s' => String c (py_slice_to k s')
  | _, _ => EmptyString
  end.

(** [s.split(sep)] for a non-empty [sep]: the pieces between the
    non-overlapping occurrences of [sep], found from the left.  [skip] counts
    the characters of a matched separator that are still to be passed; the
    head of the result is the piece being read. *)
Fixpoint py_split_go (sep : string) (skip : nat) (s : string) : list string :=
  match s with
  | EmptyString => [EmptyString]
  | String c s' =>
      match skip with
      | S k => py_split_go sep k s'
      | O =>
          if py_startswith sep s
          then EmptyString :: py_split_go sep (String.length sep - 1) s'
          else match py_split_go sep 0 s' with
               | piece :: rest => String c piece :: rest
               | [] => [String c EmptyString]
               end
      end
  end.

Definition py_split (sep s : string) : list string := py_split_go sep 0 s.

(** [sep.join(l)] *)
Definition py_join (sep : string) (l : list string) : string :=
  String.concat sep l.

(** [sep in s] *)
Fixpoint py_contains (sep s : string) : bool :=
  py_startswith sep s ||
  match s with
  | EmptyString => false
  | String _ s' => py_contains sep s'
  end.

Definition fence : string := "```".

(** ** Data of the agent *)

(** The loaded [config.yaml]. *)
Record Config : Type := {
  jira_url : string;
  jira_project_key : string;
  jira_default_issue_type : string;
  jira_default_priority : string;
  jira_initial_status : option string;
  slack_monitored_channels : list string;
  slack_notification_channel : string;
  ai_detection_mode : string;
  ai_confidence_threshold : Q;
  ai_model : string
}.

(** The Slack [message] event; a field is [None] when the key is absent. *)
Record slack_event : Type := {
  ev_subtype : option string;
  ev_bot_id : option string;
  ev_channel : option string;
  ev_user : option string;
  ev_text : option string;
  ev_ts : option string
}.

(** [users_info(...)['user']]: [real_name], and [profile.email] if any. *)
Record user : Type := {
  real_name : option string;
  profile_email : option string
}.

(** A Jira issue handle: [issue.key] and [issue.fields.status.name]. *)
Record issue : Type := {
  key : string;
  status_name : string
}.

(** One entry of [jira_client.transitions(issue)]. *)
Record transition : Type := {
  id : string;
  to_name : string
}.

(** The [fields] dict handed to [create_issue]; [priority_name] is [None]
    when the dict has no ['priority'] entry. *)
Record issue_dict : Type := {
  project_key : string;
  summary : json;
  description : string;
  issuetype_name : json;
  priority_name : option json
}.

(** ** The world outside the agent, and the trace of what the agent did *)

Inductive call : Type :=
| SlackApp (token signing_secret : string)
| JiraConnect (server email token : string)
| AnthropicClient (api_key : string)
| SocketModeStart (app_token : string)
| ConversationsInfo (channel : option string)
| UsersInfo (user_id : option string)
| MessagesCreate (model : string) (max_tokens : Z) (prompt : string)
| CreateIssue (fields : issue_dict)
| FetchIssue (issue_key : string)
| Transitions (i : issue)
| TransitionIssue (i : issue) (transition_id : string)
| ChatPostMessage (channel : string) (thread_ts : option string)
    (text : string) (unfurl_links : option bool).

Inductive level : Type := DEBUG | INFO | WARNING | ERROR.

Inductive effect : Type :=
| Called (c : call)
| Logged (lv : level) (msg : string).

(** What each library call answers.  During the handling of one message the
    agent never repeats a call with the same arguments, so an answer that
    depends on the arguments alone loses nothing. *)
Record World : Type := {
  environ : gmap string string;
  now : string;
  repr : json -> string;
  json_loads : string -> result json;
  slack_App : string -> string -> result unit;
  jira_JIRA : string -> string -> string -> result unit;
  anthropic_Anthropic : string -> result unit;
  socket_mode_start : string -> result unit;
  conversations_info : option string -> result string;
  users_info : option string -> result user;
  messages_create : string -> Z -> string -> result (list string);
  create_issue : issue_dict -> result issue;
  jira_issue : string -> result issue;
  jira_transitions : issue -> result (list transition);
  transition_issue : issue -> string -> result unit;
  chat_postMessage :
    string -> option string -> string -> option bool -> result unit
}.

(** ** The monad: a result or an exception, and the effects so far *)

Definition M (A : Type) : Type := (result A * list effect)%type.

#[global] Instance M_ret : MRet M := fun A a => (Ok a, []).

#[global] Instance M_bind : MBind M := fun A B f m =>
  match m with
  | (Ok a, t1) => let '(r, t2) := f a in (r, t1 ++ t2)
  | (Raise e, t1) => (Raise e, t1)
  end.

Definition raise {A : Type} (e : exn) : M A := (Raise e, []).

(** [try: body except Exception as e: handler e] *)
Definition try_except {A : Type} (body : M A) (handler : exn -> M A) : M A :=
  match body with
  | (Ok a, t1) => (Ok a, t1)
  | (Raise e, t1) => let '(r, t2) := handler e in (r, t1 ++ t2)
  end.

Definition invoke {A : Type} (c : call) (answer : result A) : M A :=
  (answer, [Called c]).

Definition log (lv : level) (msg : string) : M unit := (Ok tt, [Logged lv msg]).

Definition lift {A : Type} (r : result A) : M A := (r, []).

Definition outcome {A : Type} (m : M A) : result A := fst m.
Definition effects {A : Type} (m : M A) : list effect := snd m.

(** ** Dynamic operations on Python objects *)

Definition py_type_name (v : json) : string :=
  match v with
  | JNull => "NoneType"
  | JBool _ => "bool"
  | JNum _ => "float"
  | JStr _ => "str"
  | JArr _ => "list"
  | JObj _ => "dict"
  end.

(** [v.get(k, d)]: only a dict has [get]. *)
Definition dict_get (v : json) (k : string) (d : json) : M json :=
  match v with
  | JObj m => mret (default d (m !! k))
  | _ => raise (AttributeError
           ("'" +:+ py_type_name v +:+ "' object has no attribute 'get'"))
  end.

(** [d[k]] on a dict. *)
Definition dict_getitem (d : gmap string json) (k : string) : M json :=
  match d !! k with
  | Some v => mret v
  | None => raise (KeyError k)
  end.

(** [l[i]] on a list. *)
Definition list_getitem {A : Type} (l : list A) (i : nat) : M A :=
  match l !! i with
  | Some x => mret x
  | None => raise (IndexError "list index out of range")
  end.

(** [v >= t] for a float [t]: numbers and booleans compare by value, anything
    else is a [TypeError]. *)
Definition py_ge (v : json) (t : Q) : M bool :=
  match v with
  | JNum q => mret (Qle_bool t q)
  | JBool b => mret (Qle_bool t (if b then 1%Q else 0%Q))
  | _ => raise (TypeError
           ("'>=' not supported between instances of '"
            +:+ py_type_name v +:+ "' and 'float'"))
  end.

(** [not s] for an optional string: absent or empty. *)
Definition py_not (o : option string) : bool :=
  match o with
  | Some s => String.eqb s ""
  | None => true
  end.

(** A non-empty string, as tested by [if not x]. *)
Definition nonempty (o : option string) : option string :=
  if py_not o then None else o.

(** An optional string inside an f-string. *)
Definition str_opt (o : option string) : string := default "None" o.

Definition quoted (s : string) : string := dq +:+ s +:+ dq.

(** ** The methods of [JiraSlackAgent] *)

Section Agent.

Context (w : World) (cfg : Config).

(** [str(v)] inside an f-string; the text of numbers, lists and dicts is the
    world's [repr]. *)
Definition py_str (v : json) : string :=
  match v with
  | JStr s => s
  | JNull => "None"
  | JBool true => "True"
  | JBool false => "False"
  | _ => repr w v
  end.

(** *** Start-up *)

(** In the three [_init_*] methods and in [start], the [match] on [nonempty]
    is the test [if not token or not ...: raise ValueError(...)]. *)

Definition _init_slack : M unit :=
  let token := environ w !! "SLACK_BOT_TOKEN" in
  let signing_secret := environ w !! "SLACK_SIGNING_SECRET" in
  match nonempty token, nonempty signing_secret with
  | Some token, Some signing_secret =>
      invoke (SlackApp token signing_secret) (slack_App w token signing_secret);;
      log INFO "Slack app initialized"
  | _, _ =>
      raise (ValueError
        "SLACK_BOT_TOKEN and SLACK_SIGNING_SECRET must be set in .env file")
  end.

Definition _init_jira : M unit :=
  let jira_email := environ w !! "JIRA_EMAIL" in
  let jira_token := environ w !! "JIRA_API_TOKEN" in
  let url := jira_url cfg in
  match nonempty jira_email, nonempty jira_token with
  | Some jira_email, Some jira_token =>
      invoke (JiraConnect url jira_email jira_token)
             (jira_JIRA w url jira_email jira_token);;
      log INFO ("Jira client initialized for " +:+ url)
  | _, _ =>
      raise (ValueError
        "JIRA_EMAIL and JIRA_API_TOKEN must be set in .env file")
  end.

Definition _init_anthropic : M unit :=
  let api_key := environ w !! "ANTHROPIC_API_KEY" in
  match nonempty api_key with
  | Some api_key =>
      invoke (AnthropicClient api_key) (anthropic_Anthropic w api_key);;
      log INFO "Anthropic client initialized"
  | None => raise (ValueError "ANTHROPIC_API_KEY must be set in .env file")
  end.

(** [JiraSlackAgent.__init__] once [config.yaml] is loaded and logging is set
    up; registering the message handler calls no service. *)
Definition __init__ : M unit :=
  _init_slack;;
  _init_jira;;
  _init_anthropic;;
  log INFO "Jira-Slack Agent initialized successfully".

Definition start : M unit :=
  let app_token := environ w !! "SLACK_APP_TOKEN" in
  match nonempty app_token with
  | None =>
      raise (ValueError
        ("SLACK_APP_TOKEN must be set in .env file. "
         +:+ "This is required for Socket Mode. "
         +:+ "Generate it in your Slack app settings under 'App-Level Tokens'."))
  | Some app_token =>
      log INFO "Starting Jira-Slack Agent in Socket Mode...";;
      invoke (SocketModeStart app_token) (socket_mode_start w app_token)
  end.

Definition main : M unit :=
  try_except
    (__init__;; start)
    (fun e => log ERROR ("Fatal error: " +:+ str_exn e);; raise e).

(** *** Classification *)

Definition prompt_of (message_text : string) : string :=
  let detection_mode := ai_detection_mode cfg in
  let threshold := ai_confidence_threshold cfg in
  py_join nl [
    "Analyze the following Slack message and determine if it describes a bug report, task request, or issue that should be tracked in Jira.";
    "";
    "Message: " +:+ quoted message_text;
    "";
    "Detection mode: " +:+ detection_mode +:+ " (be "
      +:+ (if String.eqb detection_mode "liberal"
           then "generous and create tickets for anything that might need tracking"
           else "strict and only create tickets for clear bug reports or task requests")
      +:+ ")";
    "";
    "Please respond with a JSON object containing:";
    "{";
    "    " +:+ quoted "should_create_ticket" +:+ ": true/false,";
    "    " +:+ quoted "confidence" +:+ ": 0.0-1.0,";
    "    " +:+ quoted "issue_type" +:+ ": " +:+ quoted "Bug" +:+ " | "
      +:+ quoted "Task" +:+ " | " +:+ quoted "Story" +:+ " | "
      +:+ quoted "Improvement" +:+ ",";
    "    " +:+ quoted "summary" +:+ ": "
      +:+ quoted "Brief one-line summary (max 100 chars)" +:+ ",";
    "    " +:+ quoted "description" +:+ ": "
      +:+ quoted "Detailed description extracted from the message" +:+ ",";
    "    " +:+ quoted "priority" +:+ ": " +:+ quoted "Highest" +:+ " | "
      +:+ quoted "High" +:+ " | " +:+ quoted "Medium" +:+ " | "
      +:+ quoted "Low" +:+ " | " +:+ quoted "Lowest" +:+ ",";
    "    " +:+ quoted "reasoning" +:+ ": "
      +:+ quoted "Brief explanation of your decision";
    "}";
    "";
    "Guidelines:";
    "- For bugs: Look for error messages, unexpected behavior, crashes, or things not working";
    "- For tasks: Look for requests to implement features, make changes, or do work";
    "- For improvements: Look for suggestions to enhance existing functionality";
    "- Summary should be concise and actionable";
    "- Description should include relevant details from the message";
    "- Set appropriate priority based on urgency indicators in the message";
    "- Confidence threshold is " +:+ py_str (JNum threshold)
      +:+ " - only create tickets if confidence is above this";
    "";
    "Respond with ONLY the JSON object, no other text."
  ].

(** Lines 221-228: strip the response and remove a markdown code block. *)
Definition clean_response (text : string) : M string :=
  let response_text := py_strip text in
  if py_startswith fence response_text then
    response_text ← list_getitem (py_split fence response_text) 1;
    let response_text :=
      if py_startswith "json" response_text
      then py_slice_from 4 response_text
      else response_text in
    mret (py_strip response_text)
  else mret response_text.

(** Lines 233-236: [result.get('should_create_ticket', False) and
    result.get('confidence', 0) >= threshold]; [and] yields its left operand
    when that is false. *)
Definition gate (result : json) : M json :=
  let threshold := ai_confidence_threshold cfg in
  a ← dict_get result "should_create_ticket" (JBool false);
  if py_truthy a then
    c ← dict_get result "confidence" (JNum 0%Q);
    b ← py_ge c threshold;
    mret (JBool b)
  else mret a.

Definition _analyze_message (message_text : string)
  : M (bool * option (gmap string json)) :=
  let prompt := prompt_of message_text in
  try_except
    (content ← invoke (MessagesCreate (ai_model cfg) 1024 prompt)
                      (messages_create w (ai_model cfg) 1024 prompt);
     block ← list_getitem content 0;
     response_text ← clean_response block;
     result ← lift (json_loads w response_text);
     should_create ← gate result;
     confidence ← dict_get result "confidence" JNull;
     reasoning ← dict_get result "reasoning" JNull;
     log DEBUG ("AI Analysis - Should create: " +:+ py_str should_create
                +:+ ", Confidence: " +:+ py_str confidence
                +:+ ", Reasoning: " +:+ py_str reasoning);;
     if py_truthy should_create then
       summary ← dict_get result "summary" JNull;
       description ← dict_get result "description" JNull;
       issue_type ← dict_get result "issue_type"
                      (JStr (jira_default_issue_type cfg));
       priority ← dict_get result "priority"
                    (JStr (jira_default_priority cfg));
       mret (true,
             Some (<["summary" := summary]>
                   (<["description" := description]>
                    (<["issue_type" := issue_type]>
                     (<["priority" := priority]> ∅)))))
     else mret (false, None))
    (fun e =>
       log ERROR ("Error in AI analysis: " +:+ str_exn e);;
       mret (false, None)).

(** *** Ticket creation *)

(** Lines 264-293 of [_create_jira_ticket]: the description with its context
    and the [issue_dict] built from it.  The bare [except] around the
    priority entry swallows the failure of [ticket_info['priority']]. *)
Definition build_issue_dict (ticket_info : gmap string json)
    (reporter_name reporter_email slack_channel slack_message : string)
  : M issue_dict :=
  ai_description ← dict_getitem ticket_info "description";
  let description :=
    "*Reported by:* " +:+ reporter_name +:+ " (" +:+ reporter_email +:+ ")" +:+ nl
    +:+ "*Slack Channel:* #" +:+ slack_channel +:+ nl
    +:+ "*Original Message:*" +:+ nl
    +:+ "{quote}" +:+ nl
    +:+ slack_message +:+ nl
    +:+ "{quote}" +:+ nl
    +:+ nl
    +:+ "---" +:+ nl
    +:+ nl
    +:+ "*AI-Generated Description:*" +:+ nl
    +:+ py_str ai_description +:+ nl
    +:+ nl
    +:+ "---" +:+ nl
    +:+ "_This ticket was automatically created by the Jira-Slack AI Agent on "
    +:+ now w +:+ "_" +:+ nl in
  summary ← dict_getitem ticket_info "summary";
  issue_type ← dict_getitem ticket_info "issue_type";
  priority ← try_except
                (p ← dict_getitem ticket_info "priority"; mret (Some p))
                (fun _ => mret None);
  mret {| project_key := jira_project_key cfg;
          summary := summary;
          description := description;
          issuetype_name := issue_type;
          priority_name := priority |}.

(** [_set_issue_status].  The handler reads [issue.key] of the variable
    [issue], which the first statement of the [try] rebinds: the handler sees
    the old handle when the re-fetch fails and the fetched one afterwards. *)
Definition _set_issue_status (issue0 : issue) (desired_status : string)
  : M unit :=
  let failed (i : issue) (e : exn) : M unit :=
    log ERROR ("Error setting status for " +:+ key i +:+ ": " +:+ str_exn e) in
  fetched ← try_except
              (i ← invoke (FetchIssue (key issue0)) (jira_issue w (key issue0));
               mret (Some i))
              (fun e => failed issue0 e;; mret None);
  match fetched with
  | None => mret tt
  | Some issue =>
      try_except
        (let current_status := status_name issue in
         if String.eqb current_status desired_status then
           log DEBUG ("Issue " +:+ key issue +:+ " already in '"
                      +:+ desired_status +:+ "' status")
         else
           transitions ← invoke (Transitions issue) (jira_transitions w issue);
           let target_transition :=
             List.find (fun t => String.eqb (to_name t) desired_status)
                       transitions in
           match target_transition with
           | Some target =>
               invoke (TransitionIssue issue (id target))
                      (transition_issue w issue (id target));;
               log INFO ("Transitioned " +:+ key issue +:+ " from '"
                         +:+ current_status +:+ "' to '"
                         +:+ desired_status +:+ "'")
           | None =>
               let available := List.map to_name transitions in
               log WARNING ("Cannot transition " +:+ key issue +:+ " to '"
                            +:+ desired_status +:+ "'. "
                            +:+ "Current status: '" +:+ current_status +:+ "'. "
                            +:+ "Available transitions: "
                            +:+ py_join ", " available)
           end)
        (failed issue)
  end.

Definition _create_jira_ticket (ticket_info : gmap string json)
    (reporter_name reporter_email slack_channel slack_message : string)
  : M issue :=
  issue_dict ← build_issue_dict ticket_info reporter_name reporter_email
                 slack_channel slack_message;
  issue ← invoke (CreateIssue issue_dict) (create_issue w issue_dict);
  summary ← dict_getitem ticket_info "summary";
  log INFO ("Created Jira ticket " +:+ key issue +:+ ": " +:+ py_str summary);;
  match nonempty (jira_initial_status cfg) with
  | Some desired_status => _set_issue_status issue desired_status
  | None => mret tt
  end;;
  mret issue.

(** *** Notification *)

Definition notification_text (issue_key issue_url original_message
    channel_name : string) (user_id : option string) : string :=
  ":white_check_mark: *Jira Ticket Created*" +:+ nl +:+ nl
  +:+ "*Ticket:* <" +:+ issue_url +:+ "|" +:+ issue_key +:+ ">" +:+ nl
  +:+ "*From:* <#" +:+ channel_name +:+ "> by <@" +:+ str_opt user_id
  +:+ ">" +:+ nl
  +:+ "*Original Message:*" +:+ nl
  +:+ "```" +:+ py_slice_to 200 original_message
  +:+ (if (200 <? String.length original_message)%nat then "..." else "")
  +:+ "```".

Definition _send_notification (issue_key issue_url original_message
    channel_name : string) (user_id thread_ts : option string) : M unit :=
  let notification_channel := slack_notification_channel cfg in
  let message :=
    notification_text issue_key issue_url original_message channel_name
      user_id in
  try_except
    (invoke (ChatPostMessage notification_channel None message (Some false))
            (chat_postMessage w notification_channel None message (Some false));;
     let reply :=
       ":ticket: Created Jira ticket: <" +:+ issue_url +:+ "|" +:+ issue_key
       +:+ ">" in
     invoke (ChatPostMessage channel_name thread_ts reply None)
            (chat_postMessage w channel_name thread_ts reply None);;
     log INFO ("Sent notification for " +:+ issue_key))
    (fun e => log ERROR ("Error sending notification: " +:+ str_exn e)).

(** *** The router *)

Definition _process_message (event : slack_event) (channel_name : string)
  : M unit :=
  let message_text := default "" (ev_text event) in
  let user_id := ev_user event in
  let timestamp := ev_ts event in
  log INFO ("Processing message from #" +:+ channel_name +:+ ": "
            +:+ py_slice_to 100 message_text +:+ "...");;
  try_except
    ('(should_create, ticket_info) ← _analyze_message message_text;
     if (should_create : bool) then
       info ← match ticket_info with
              | Some d => mret d
              | None => raise (AttributeError
                          "'NoneType' object has no attribute 'get'")
              end;
       log INFO ("AI determined ticket should be created: "
                 +:+ py_str (default JNull (info !! "summary")));;
       user_info ← invoke (UsersInfo user_id) (users_info w user_id);
       user_name ← match real_name user_info with
                   | Some n => mret n
                   | None => raise (KeyError "real_name")
                   end;
       let user_email := default "unknown" (profile_email user_info) in
       issue ← _create_jira_ticket info user_name user_email channel_name
                 message_text;
       _send_notification (key issue)
         (jira_url cfg +:+ "/browse/" +:+ key issue)
         message_text channel_name user_id timestamp;;
       log INFO ("Successfully created ticket " +:+ key issue)
     else
       log DEBUG ("AI determined no ticket needed for message: "
                  +:+ py_slice_to 50 message_text +:+ "..."))
    (fun e => log ERROR ("Error processing message: " +:+ str_exn e)).

Definition handle_message (event : slack_event) : M unit :=
  match nonempty (ev_subtype event), nonempty (ev_bot_id event) with
  | None, None =>
      let channel_id := ev_channel event in
      channel_name ← invoke (ConversationsInfo channel_id)
                            (conversations_info w channel_id);
      if bool_decide (channel_name ∈ slack_monitored_channels cfg)
      then _process_message event channel_name
      else mret tt
  | _, _ => mret tt
  end.

End Agent.

(** ** Reading the trace *)

Definition is_create (e : effect) : bool :=
  match e with Called (CreateIssue _) => true | _ => false end.

Definition is_post (e : effect) : bool :=
  match e with Called (ChatPostMessage _ _ _ _) => true | _ => false end.

Definition is_transition (e : effect) : bool :=
  match e with Called (TransitionIssue _ _) => true | _ => false end.

Definition count (p : effect -> bool) (t : list effect) : nat :=
  length (List.filter p t).

(** ** The verdict of the classifier, as the specification reads it *)

(** The number a confidence stands for: [bool] is a subtype of [int]. *)
Definition as_number (v : json) : option Q :=
  match v with
  | JNum q => Some q
  | JBool b => Some (if b then 1%Q else 0%Q)
  | _ => None
  end.

(** [should_create_ticket] holds and [confidence >= threshold], an absent
    field standing for [False] and [0]. *)
Definition verdict_passes (cfg : Config) (m : gmap string json) : bool :=
  py_truthy (default (JBool false) (m !! "should_create_ticket"))
  && match as_number (default (JNum 0%Q) (m !! "confidence")) with
     | Some q => Qle_bool (ai_confidence_threshold cfg) q
     | None => false
     end.

(** The model answered the prompt for [message_text] and the text, once
    cleaned, decoded to the JSON object [m]. *)
Definition verdict_is (w : World) (cfg : Config) (message_text : string)
    (m : gmap string json) : Prop :=
  ∃ content block text,
    messages_create w (ai_model cfg) 1024 (prompt_of w cfg message_text)
      = Ok content
    ∧ content !! 0%nat = Some block
    ∧ outcome (clean_response block) = Ok text
    ∧ json_loads w text = Ok (JObj m).

(** The [ticket_info] dict of a verdict, lines 241-246. *)
Definition ticket_info_of (cfg : Config) (m : gmap string json)
  : gmap string json :=
  <["summary" := default JNull (m !! "summary")]>
  (<["description" := default JNull (m !! "description")]>
   (<["issue_type" :=
        default (JStr (jira_default_issue_type cfg)) (m !! "issue_type")]>
    (<["priority" :=
         default (JStr (jira_default_priority cfg)) (m !! "priority")]> ∅))).

(** ** The issue a verdict asks for *)

(** The description of lines 265-279, around the verdict's description. *)
Definition description_of (w : World) (ai_description : json)
    (reporter_name reporter_email slack_channel slack_message : string)
  : string :=
  "*Reported by:* " +:+ reporter_name +:+ " (" +:+ reporter_email +:+ ")" +:+ nl
  +:+ "*Slack Channel:* #" +:+ slack_channel +:+ nl
  +:+ "*Original Message:*" +:+ nl
  +:+ "{quote}" +:+ nl
  +:+ slack_message +:+ nl
  +:+ "{quote}" +:+ nl
  +:+ nl
  +:+ "---" +:+ nl
  +:+ nl
  +:+ "*AI-Generated Description:*" +:+ nl
  +:+ py_str w ai_description +:+ nl
  +:+ nl
  +:+ "---" +:+ nl
  +:+ "_This ticket was automatically created by the Jira-Slack AI Agent on "
  +:+ now w +:+ "_" +:+ nl.

Definition issue_dict_of (w : World) (cfg : Config) (m : gmap string json)
    (reporter_name reporter_email slack_channel slack_message : string)
  : issue_dict :=
  {| project_key := jira_project_key cfg;
     summary := default JNull (m !! "summary");
     description :=
       description_of w (default JNull (m !! "description"))
         reporter_name reporter_email slack_channel slack_message;
     issuetype_name :=
       default (JStr (jira_default_issue_type cfg)) (m !! "issue_type");
     priority_name :=
       Some (default (JStr (jira_default_priority cfg)) (m !! "priority")) |}.


(** ** Sample data *)

(** The same world with another answer of the model. *)
Definition with_response (w : World) (text : string) : World :=
  {| environ := environ w;
     now := now w;
     repr := repr w;
     json_loads := json_loads w;
     slack_App := slack_App w;
     jira_JIRA := jira_JIRA w;
     anthropic_Anthropic := anthropic_Anthropic w;
     socket_mode_start := socket_mode_start w;
     conversations_info := conversations_info w;
     users_info := users_info w;
     messages_create := fun _ _ _ => Ok [text];
     create_issue := create_issue w;
     jira_issue := jira_issue w;
     jira_transitions := jira_transitions w;
     transition_issue := transition_issue w;
     chat_postMessage := chat_postMessage w |}.

Definition sample_config : Config :=
  {| jira_url := "https://example.atlassian.net";
     jira_project_key := "PROJ";
     jira_default_issue_type := "Task";
     jira_default_priority := "Medium";
     jira_initial_status := Some "To Do";
     slack_monitored_channels := ["bugs"; "support"];
     slack_notification_channel := "jira-feed";
     ai_detection_mode := "strict";
     ai_confidence_threshold := (7 # 10)%Q;
     ai_model := "claude" |}.

Definition sample_event : slack_event :=
  {| ev_subtype := None;
     ev_bot_id := None;
     ev_channel := Some "C024BE91L";
     ev_user := Some "U2147483697";
     ev_text := Some "the export button crashes with a 500 error";
     ev_ts := Some "1700000000.000100" |}.

Definition all_secrets : gmap string string :=
  <["SLACK_BOT_TOKEN" := "xoxb-1"]>
  (<["SLACK_SIGNING_SECRET" := "s3"]>
   (<["SLACK_APP_TOKEN" := "xapp-1"]>
    (<["JIRA_EMAIL" := "bot@example.com"]>
     (<["JIRA_API_TOKEN" := "jt"]>
      (<["ANTHROPIC_API_KEY" := "sk-1"]> ∅))))).

(** A JSON text for the bug report, with the given confidence literal and
    summary. *)
Definition verdict_text (confidence summary : string) : string :=
  "{" +:+ quoted "should_create_ticket" +:+ ": true, "
  +:+ quoted "confidence" +:+ ": " +:+ confidence +:+ ", "
  +:+ quoted "issue_type" +:+ ": " +:+ quoted "Bug" +:+ ", "
  +:+ quoted "summary" +:+ ": " +:+ quoted summary +:+ ", "
  +:+ quoted "description" +:+ ": " +:+ quoted "Export fails with HTTP 500" +:+ ", "
  +:+ quoted "priority" +:+ ": " +:+ quoted "High" +:+ "}".

(** The object that text decodes to. *)
Definition verdict_object (confidence : Q) (summary : string)
  : gmap string json :=
  <["should_create_ticket" := JBool true]>
  (<["confidence" := JNum confidence]>
   (<["issue_type" := JStr "Bug"]>
    (<["summary" := JStr summary]>
     (<["description" := JStr "Export fails with HTTP 500"]>
      (<["priority" := JStr "High"]> ∅))))).

(** A decoder that knows one text; it agrees with [json.loads] on every text
    the sample runs hand to it. *)
Definition decode_only (text : string) (m : gmap string json)
  : string -> result json :=
  fun s =>
    if String.eqb s text then Ok (JObj m)
    else Raise (JSONDecodeError "Expecting value: line 1 column 1 (char 0)").

Definition sample_user : user :=
  {| real_name := Some "Ann Lee"; profile_email := Some "ann@example.com" |}.

Definition sample_issue : issue :=
  {| key := "PROJ-7"; status_name := "Backlog" |}.

Definition sample_transitions : list transition :=
  [ {| id := "11"; to_name := "In Progress" |};
    {| id := "31"; to_name := "Done" |} ].

(** A world in which every service answers, up to the given parameters. *)
Definition sample_world (env : gmap string string) (clock : string)
    (response : result (list string)) (decode : string -> result json)
    (lookup : result user) (create : issue_dict -> result issue)
    (post : string -> option string -> string -> option bool -> result unit)
  : World :=
  {| environ := env;
     now := clock;
     repr := fun v => match v with
                      | JNum q => if Qeq_bool q (7 # 10)%Q then "0.7"
                                  else if Qeq_bool q (9 # 10)%Q then "0.9"
                                  else "0.5"
                      | _ => "[]"
                      end;
     json_loads := decode;
     slack_App := fun _ _ => Ok tt;
     jira_JIRA := fun _ _ _ => Ok tt;
     anthropic_Anthropic := fun _ => Ok tt;
     socket_mode_start := fun _ => Ok tt;
     conversations_info := fun _ => Ok "bugs";
     users_info := fun _ => lookup;
     messages_create := fun _ _ _ => response;
     create_issue := create;
     jira_issue := fun k => Ok {| key := k; status_name := "Backlog" |};
     jira_transitions := fun _ => Ok sample_transitions;
     transition_issue := fun _ _ => Ok tt;
     chat_postMessage := post |}.

Definition clock0 : string := "2024-05-17 09:30:00".

Definition posts_ok
  : string -> option string -> string -> option bool -> result unit :=
  fun _ _ _ _ => Ok tt.

Definition creates_ok : issue_dict -> result issue :=
  fun _ => Ok sample_issue.

(** The model is sure of the bug (0.9), and unsure of it (0.5). *)
Definition world_sure : World :=
  sample_world all_secrets clock0
    (Ok [verdict_text "0.9" "Export button returns 500"])
    (decode_only (verdict_text "0.9" "Export button returns 500")
       (verdict_object (9 # 10) "Export button returns 500"))
    (Ok sample_user) creates_ok posts_ok.

Definition world_unsure : World :=
  sample_world all_secrets clock0
    (Ok [verdict_text "0.5" "Export button returns 500"])
    (decode_only (verdict_text "0.5" "Export button returns 500")
       (verdict_object (5 # 10) "Export button returns 500"))
    (Ok sample_user) creates_ok posts_ok.

(** The chat platform does not know the author of the message. *)
Definition world_no_user : World :=
  sample_world all_secrets clock0
    (Ok [verdict_text "0.9" "Export button returns 500"])
    (decode_only (verdict_text "0.9" "Export button returns 500")
       (verdict_object (9 # 10) "Export button returns 500"))
    (Raise (RemoteError "user_not_found")) creates_ok posts_ok.

(** The project's screens have no priority field: the tracker rejects an
    issue that sets one. *)
Definition creates_without_priority : issue_dict -> result issue :=
  fun d =>
    match priority_name d with
    | Some _ =>
        Raise (RemoteError
          "Field 'priority' cannot be set. It is not on the appropriate screen, or unknown.")
    | None => Ok sample_issue
    end.

Definition world_no_priority : World :=
  sample_world all_secrets clock0
    (Ok [verdict_text "0.9" "Export button returns 500"])
    (decode_only (verdict_text "0.9" "Export button returns 500")
       (verdict_object (9 # 10) "Export button returns 500"))
    (Ok sample_user) creates_without_priority posts_ok.

(** One second later. *)
Definition world_later : World :=
  sample_world all_secrets "2024-05-17 09:30:01"
    (Ok [verdict_text "0.9" "Export button returns 500"])
    (decode_only (verdict_text "0.9" "Export button returns 500")
       (verdict_object (9 # 10) "Export button returns 500"))
    (Ok sample_user) creates_ok posts_ok.

(** The notification channel cannot be posted to. *)
Definition posts_feed_down
  : string -> option string -> string -> option bool -> result unit :=
  fun channel _ _ _ =>
    if String.eqb channel "jira-feed"
    then Raise (RemoteError "channel_not_found")
    else Ok tt.

Definition world_feed_down : World :=
  sample_world all_secrets clock0
    (Ok [verdict_text "0.9" "Export button returns 500"])
    (decode_only (verdict_text "0.9" "Export button returns 500")
       (verdict_object (9 # 10) "Export button returns 500"))
    (Ok sample_user) creates_ok posts_feed_down.

(** The model answers with prose. *)
Definition world_prose : World :=
  sample_world all_secrets clock0
    (Ok ["I think this is a bug."])
    (decode_only (verdict_text "0.9" "Export button returns 500")
       (verdict_object (9 # 10) "Export button returns 500"))
    (Ok sample_user) creates_ok posts_ok.

(** The model cannot be reached. *)
Definition world_offline : World :=
  sample_world all_secrets clock0
    (Raise (RemoteError "Connection error."))
    (decode_only (verdict_text "0.9" "Export button returns 500")
       (verdict_object (9 # 10) "Export button returns 500"))
    (Ok sample_user) creates_ok posts_ok.

(** Messages of 250 and of 150 characters. *)
Definition long_message : string :=
  String.concat "" (List.repeat "0123456789" 25).

Definition short_message : string :=
  String.concat "" (List.repeat "0123456789" 15).

(** The text of a notification up to the excerpt. *)
Definition notification_header (issue_key issue_url channel_name : string)
    (user_id : option string) : string :=
  ":white_check_mark: *Jira Ticket Created*" +:+ nl +:+ nl
  +:+ "*Ticket:* <" +:+ issue_url +:+ "|" +:+ issue_key +:+ ">" +:+ nl
  +:+ "*From:* <#" +:+ channel_name +:+ "> by <@" +:+ str_opt user_id
  +:+ ">" +:+ nl
  +:+ "*Original Message:*" +:+ nl.

(** ** Start-up, as the specification reads it *)

Definition required_secrets : list string :=
  ["SLACK_BOT_TOKEN"; "SLACK_SIGNING_SECRET"; "SLACK_APP_TOKEN";
   "JIRA_EMAIL"; "JIRA_API_TOKEN"; "ANTHROPIC_API_KEY"].

(** A secret is missing when the variable is unset or empty. *)
Definition missing (w : World) (name : string) : Prop :=
  nonempty (environ w !! name) = None.

Definition present (w : World) (name : string) : Prop :=
  is_Some (nonempty (environ w !! name)).

Definition is_call (e : effect) : bool :=
  match e with Called _ => true | Logged _ _ => false end.

Definition is_jira_connect (e : effect) : bool :=
  match e with Called (JiraConnect _ _ _) => true | _ => false end.

Definition is_socket_start (e : effect) : bool :=
  match e with Called (SocketModeStart _) => true | _ => false end.

(** The three client constructors succeed whatever they are given. *)
Definition clients_connect (w : World) : Prop :=
  (∀ token secret, slack_App w token secret = Ok tt)
  ∧ (∀ server email token, jira_JIRA w server email token = Ok tt)
  ∧ (∀ api_key, anthropic_Anthropic w api_key = Ok tt).

(** Every secret is set but the model's key. *)
Definition world_no_model_key : World :=
  sample_world (delete "ANTHROPIC_API_KEY" all_secrets) clock0
    (Ok [verdict_text "0.9" "Export button returns 500"])
    (decode_only (verdict_text "0.9" "Export button returns 500")
       (verdict_object (9 # 10) "Export button returns 500"))
    (Ok sample_user) creates_ok posts_ok.

(** ** Fenced answers, as the specification reads them *)

(** No code fence starts inside [body] when a fence follows it. *)
Definition no_fence_inside (body : string) : Prop :=
  py_contains fence (body +:+ "``") = false.

(** A summary that quotes code, and the decoder of a verdict that has it. *)
Definition fenced_summary : string := "Render ```code``` blocks".

Definition world_fenced_summary : World :=
  sample_world all_secrets clock0
    (Ok [verdict_text "0.9" fenced_summary])
    (decode_only (verdict_text "0.9" fenced_summary)
       (verdict_object (9 # 10) fenced_summary))
    (Ok sample_user) creates_ok posts_ok.
(** ** More ways to read the trace *)

Definition is_model_call (e : effect) : bool :=
  match e with Called (MessagesCreate _ _ _) => true | _ => false end.

Definition is_error_log (e : effect) : bool :=
  match e with Logged ERROR _ => true | _ => false end.

(** The calls of a trace, without the log lines. *)
Definition calls_of (t : list effect) : list call :=
  omap (fun e => match e with Called c => Some c | Logged _ _ => None end) t.

(** The router admits an event: it is no edit and no bot message, and the
    name the chat platform gives for its channel is monitored. *)
Definition admitted (w : World) (cfg : Config) (event : slack_event) : Prop :=
  nonempty (ev_subtype event) = None
  ∧ nonempty (ev_bot_id event) = None
  ∧ ∃ name, conversations_info w (ev_channel event) = Ok name
            ∧ name ∈ slack_monitored_channels cfg.

(** At most one call to the model, one issue, one transition and two posts. *)
Definition within_budget (t : list effect) : Prop :=
  (count is_model_call t ≤ 1)%nat ∧ (count is_create t ≤ 1)%nat
  ∧ (count is_transition t ≤ 1)%nat ∧ (count is_post t ≤ 2)%nat.

(** ** More sample data *)

(** Only [support] is monitored. *)
Definition support_only_config : Config :=
  {| jira_url := jira_url sample_config;
     jira_project_key := jira_project_key sample_config;
     jira_default_issue_type := jira_default_issue_type sample_config;
     jira_default_priority := jira_default_priority sample_config;
     jira_initial_status := jira_initial_status sample_config;
     slack_monitored_channels := ["support"];
     slack_notification_channel := slack_notification_channel sample_config;
     ai_detection_mode := ai_detection_mode sample_config;
     ai_confidence_threshold := ai_confidence_threshold sample_config;
     ai_model := ai_model sample_config |}.

(** The message was edited; the message was posted by a bot. *)
Definition edited_event : slack_event :=
  {| ev_subtype := Some "message_changed";
     ev_bot_id := None;
     ev_channel := ev_channel sample_event;
     ev_user := ev_user sample_event;
     ev_text := ev_text sample_event;
     ev_ts := ev_ts sample_event |}.

Definition bot_event : slack_event :=
  {| ev_subtype := None;
     ev_bot_id := Some "B01";
     ev_channel := ev_channel sample_event;
     ev_user := ev_user sample_event;
     ev_text := ev_text sample_event;
     ev_ts := ev_ts sample_event |}.

(** The same world with another answer to the look-up of a channel. *)
Definition with_channel_lookup (w : World) (answer : result string) : World :=
  {| environ := environ w;
     now := now w;
     repr := repr w;
     json_loads := json_loads w;
     slack_App := slack_App w;
     jira_JIRA := jira_JIRA w;
     anthropic_Anthropic := anthropic_Anthropic w;
     socket_mode_start := socket_mode_start w;
     conversations_info := fun _ => answer;
     users_info := users_info w;
     messages_create := messages_create w;
     create_issue := create_issue w;
     jira_issue := jira_issue w;
     jira_transitions := jira_transitions w;
     transition_issue := transition_issue w;
     chat_postMessage := chat_postMessage w |}.

(** The tracker offers a transition to [To Do], after one to [In Progress]
    and before a second one to [To Do]. *)
Definition transitions_with_target : list transition :=
  [ {| id := "11"; to_name := "In Progress" |};
    {| id := "21"; to_name := "To Do" |};
    {| id := "41"; to_name := "To Do" |} ].

(** The same world with other answers of the tracker about an issue. *)
Definition with_tracker (w : World) (fetch : string -> result issue)
    (offered : issue -> result (list transition))
    (apply : issue -> string -> result unit) : World :=
  {| environ := environ w;
     now := now w;
     repr := repr w;
     json_loads := json_loads w;
     slack_App := slack_App w;
     jira_JIRA := jira_JIRA w;
     anthropic_Anthropic := anthropic_Anthropic w;
     socket_mode_start := socket_mode_start w;
     conversations_info := conversations_info w;
     users_info := users_info w;
     messages_create := messages_create w;
     create_issue := create_issue w;
     jira_issue := fetch;
     jira_transitions := offered;
     transition_issue := apply;
     chat_postMessage := chat_postMessage w |}.

Definition status_error_line (issue_key : string) (e : exn) : string :=
  "Error setting status for " +:+ issue_key +:+ ": " +:+ str_exn e.

(** The text of the threaded reply. *)
Definition reply_text (issue_key issue_url : string) : string :=
  ":ticket: Created Jira ticket: <" +:+ issue_url +:+ "|" +:+ issue_key +:+ ">".

(** Only the notification channel can be posted to. *)
Definition posts_thread_down
  : string -> option string -> string -> option bool -> result unit :=
  fun channel _ _ _ =>
    if String.eqb channel "jira-feed"
    then Ok tt
    else Raise (RemoteError "not_in_channel").

Definition world_thread_down : World :=
  sample_world all_secrets clock0
    (Ok [verdict_text "0.9" "Export button returns 500"])
    (decode_only (verdict_text "0.9" "Export button returns 500")
       (verdict_object (9 # 10) "Export button returns 500"))
    (Ok sample_user) creates_ok posts_thread_down.

(** No initial status is configured. *)
Definition no_status_config : Config :=
  {| jira_url := jira_url sample_config;
     jira_project_key := jira_project_key sample_config;
     jira_default_issue_type := jira_default_issue_type sample_config;
     jira_default_priority := jira_default_priority sample_config;
     jira_initial_status := None;
     slack_monitored_channels := slack_monitored_channels sample_config;
     slack_notification_channel := slack_notification_channel sample_config;
     ai_detection_mode := ai_detection_mode sample_config;
     ai_confidence_threshold := ai_confidence_threshold sample_config;
     ai_model := ai_model sample_config |}.

(** A [ticket_info] without a priority, and one without a summary. *)
Definition info_without_priority : gmap string json :=
  <["summary" := JStr "Export button returns 500"]>
  (<["description" := JStr "Export fails with HTTP 500"]>
   (<["issue_type" := JStr "Bug"]> ∅)).

Definition info_without_summary : gmap string json :=
  <["description" := JStr "Export fails with HTTP 500"]>
  (<["issue_type" := JStr "Bug"]> (<["priority" := JStr "High"]> ∅)).





(** The model is exactly as sure as the threshold asks (0.7). *)
Definition world_at_threshold : World :=
  sample_world all_secrets clock0
    (Ok [verdict_text "0.7" "Export button returns 500"])
    (decode_only (verdict_text "0.7" "Export button returns 500")
       (verdict_object (7 # 10) "Export button returns 500"))
    (Ok sample_user) creates_ok posts_ok.

(** A verdict that only says no ticket is needed, without a confidence; and
    one that gives a confidence but not the decision. *)
Definition flagless_verdict : gmap string json :=
  <["confidence" := JNum 1%Q]> (<["summary" := JStr "Export fails"]> ∅).

Definition world_flagless : World :=
  sample_world all_secrets clock0 (Ok ["{}"])
    (fun _ => Ok (JObj flagless_verdict))
    (Ok sample_user) creates_ok posts_ok.

Definition ticket_keys : list string :=
  ["summary"; "description"; "issue_type"; "priority"].


(** A verdict that says yes and nothing else; a configuration whose threshold
    is zero. *)
Definition bare_yes_verdict : gmap string json :=
  <["should_create_ticket" := JBool true]> ∅.

Definition world_bare_yes : World :=
  sample_world all_secrets clock0 (Ok ["{}"])
    (fun _ => Ok (JObj bare_yes_verdict))
    (Ok sample_user) creates_ok posts_ok.

Definition zero_threshold_config : Config :=
  {| jira_url := jira_url sample_config;
     jira_project_key := jira_project_key sample_config;
     jira_default_issue_type := jira_default_issue_type sample_config;
     jira_default_priority := jira_default_priority sample_config;
     jira_initial_status := jira_initial_status sample_config;
     slack_monitored_channels := slack_monitored_channels sample_config;
     slack_notification_channel := slack_notification_channel sample_config;
     ai_detection_mode := ai_detection_mode sample_config;
     ai_confidence_threshold := 0%Q;
     ai_model := ai_model sample_config |}.

(** The lines [_process_message] writes around its work. *)
Definition processing_line (channel_name message_text : string) : string :=
  "Processing message from #" +:+ channel_name +:+ ": "
  +:+ py_slice_to 100 message_text +:+ "...".

Definition processing_error_line (e : exn) : string :=
  "Error processing message: " +:+ str_exn e.

Definition created_line (issue_key : string) : string :=
  "Successfully created ticket " +:+ issue_key.

(** The link to an issue. *)
Definition browse_url (cfg : Config) (issue_key : string) : string :=
  jira_url cfg +:+ "/browse/" +:+ issue_key.

(** * Lemmas *)

(** ** Text operations at work *)

Example split_fenced :
  py_split fence ("```json" +:+ nl +:+ "{}" +:+ nl +:+ "```")
  = [""; "json" +:+ nl +:+ "{}" +:+ nl; ""].
Proof. reflexivity. Qed.

Example split_plain : py_split fence "a`b``c" = ["a`b``c"].
Proof. reflexivity. Qed.

Example strip_both :
  py_strip (" " +:+ nl +:+ "a b" +:+ nl +:+ " ") = "a b".
Proof. reflexivity. Qed.

(** ** Lemmas on strings *)

Lemma string_app_cons c s t : String c s +:+ t = String c (s +:+ t).
Proof. reflexivity. Qed.

Lemma string_app_nil_l s : "" +:+ s = s.
Proof. reflexivity. Qed.

Lemma string_app_nil_r s : s +:+ "" = s.
Proof.
  induction s as [|c s IH]; [reflexivity|].
  rewrite string_app_cons, IH. reflexivity.
Qed.

Lemma string_app_assoc s t u : (s +:+ t) +:+ u = s +:+ (t +:+ u).
Proof.
  induction s as [|c s IH]; [reflexivity|].
  rewrite !string_app_cons, IH. reflexivity.
Qed.

Lemma slice_to_substring n s : py_slice_to n s = String.substring 0 n s.
Proof.
  revert s. induction n as [|n IH]; intros [|c s]; simpl; try reflexivity.
  rewrite IH. reflexivity.
Qed.

Lemma slice_to_all n s : (String.length s ≤ n)%nat → py_slice_to n s = s.
Proof.
  revert s. induction n as [|n IH]; intros [|c s] H; simpl in *;
    try reflexivity; [lia|].
  rewrite IH by lia. reflexivity.
Qed.

Lemma slice_to_length n s :
  (n ≤ String.length s)%nat → String.length (py_slice_to n s) = n.
Proof.
  revert s. induction n as [|n IH]; intros [|c s] H; simpl in *;
    try reflexivity; [lia|].
  rewrite IH by lia. reflexivity.
Qed.

(** ** Lemmas on code fences *)

Lemma startswith_app p a z :
  py_startswith p a = true → py_startswith p (a +:+ z) = true.
Proof.
  revert a. induction p as [|c p IH]; intros a H; [reflexivity|].
  destruct a as [|c' a]; simpl in H; [discriminate|].
  rewrite string_app_cons. simpl.
  apply andb_true_iff in H as [-> H]. apply IH. exact H.
Qed.

Lemma contains_nil p : py_contains p "" = py_startswith p "".
Proof. unfold py_contains. apply orb_false_r. Qed.

Lemma contains_cons p c s :
  py_contains p (String c s)
  = py_startswith p (String c s) || py_contains p s.
Proof. reflexivity. Qed.

Lemma contains_of_prefix p s :
  py_startswith p s = true → py_contains p s = true.
Proof.
  intros H. destruct s; [rewrite contains_nil|rewrite contains_cons, H];
    auto.
Qed.

Lemma contains_app p s z :
  py_contains p s = true → py_contains p (s +:+ z) = true.
Proof.
  induction s as [|c s IH]; intros H.
  - rewrite contains_nil in H. apply contains_of_prefix.
    apply (startswith_app _ _ z) in H. exact H.
  - rewrite contains_cons in H. apply orb_true_iff in H as [H|H].
    + apply contains_of_prefix. apply startswith_app. exact H.
    + rewrite string_app_cons, contains_cons, (IH H). apply orb_true_r.
Qed.

Lemma lstrip_contains p s :
  py_startswith p (py_lstrip s) = true → py_contains p s = true.
Proof.
  induction s as [|c s IH]; intros H.
  - apply contains_of_prefix. exact H.
  - change (py_lstrip (String c s))
      with (if is_space c then py_lstrip s else String c s) in H.
    destruct (is_space c).
    + rewrite contains_cons, (IH H). apply orb_true_r.
    + apply contains_of_prefix. exact H.
Qed.

Lemma rstrip_is_prefix s : ∃ z, s = py_rstrip s +:+ z.
Proof.
  induction s as [|c s [z IH]]; [exists ""; reflexivity|].
  simpl. destruct (py_rstrip s) as [|c' r] eqn:Hr.
  - destruct (is_space c); [exists (String c s); reflexivity|].
    exists s. reflexivity.
  - exists z. rewrite string_app_cons. f_equal. exact IH.
Qed.

Lemma rstrip_cons_keep c s :
  is_space c = false → py_rstrip (String c s) = String c (py_rstrip s).
Proof. intros H. simpl. rewrite H. destruct (py_rstrip s); reflexivity. Qed.

Lemma rstrip_fence r : py_rstrip (fence +:+ r) = fence +:+ py_rstrip r.
Proof.
  unfold fence. rewrite !string_app_cons, !string_app_nil_l.
  rewrite !rstrip_cons_keep by reflexivity. reflexivity.
Qed.

Lemma rstrip_before_fence x r :
  py_rstrip (x +:+ fence +:+ r) = x +:+ fence +:+ py_rstrip r.
Proof.
  induction x as [|c x IH]; [apply rstrip_fence|].
  rewrite !string_app_cons. simpl. rewrite IH.
  destruct x; reflexivity.
Qed.

Lemma strip_without_fence body :
  no_fence_inside body → py_startswith fence (py_strip body) = false.
Proof.
  unfold no_fence_inside, py_strip. intros H.
  destruct (py_startswith fence (py_rstrip (py_lstrip body))) eqn:Hp;
    [|reflexivity].
  destruct (rstrip_is_prefix (py_lstrip body)) as [z Hz].
  apply (startswith_app _ _ z) in Hp. rewrite <- Hz in Hp.
  apply lstrip_contains in Hp. apply (contains_app _ _ "``") in Hp.
  congruence.
Qed.

Lemma split_at_fence r :
  py_split_go fence 0 (fence +:+ r) = "" :: py_split_go fence 0 r.
Proof. reflexivity. Qed.

Lemma startswith_fence_before_fence x r :
  x ≠ "" →
  py_startswith fence (x +:+ "``") = false →
  py_startswith fence (x +:+ fence +:+ r) = false.
Proof.
  intros Hx H. destruct x as [|c1 [|c2 [|c3 x]]]; [congruence| | |];
    unfold fence in *;
    rewrite ?string_app_cons, ?string_app_nil_l in *; simpl in *;
    repeat match goal with
           | |- context [Ascii.eqb ?a ?b] =>
               destruct (Ascii.eqb a b); simpl in *
           end;
    first [reflexivity | discriminate | exact H].
Qed.

Lemma split_body_then_fence body r :
  no_fence_inside body →
  py_split_go fence 0 (body +:+ fence +:+ r)
  = body :: py_split_go fence 0 r.
Proof.
  unfold no_fence_inside. induction body as [|c body IH]; intros H.
  - apply split_at_fence.
  - rewrite string_app_cons, contains_cons in H.
    apply orb_false_iff in H as [Hp Hc]. rewrite <- string_app_cons in Hp.
    rewrite string_app_cons.
    change (py_split_go fence 0 (String c (body +:+ fence +:+ r)))
      with (if py_startswith fence (String c (body +:+ fence +:+ r))
            then "" :: py_split_go fence (String.length fence - 1)
                         (body +:+ fence +:+ r)
            else match py_split_go fence 0 (body +:+ fence +:+ r) with
                 | piece :: rest => String c piece :: rest
                 | [] => [String c ""]
                 end).
    rewrite <- string_app_cons.
    rewrite startswith_fence_before_fence; [|discriminate|exact Hp].
    rewrite (IH Hc). reflexivity.
Qed.

Lemma no_fence_inside_json body :
  no_fence_inside body → no_fence_inside ("json" +:+ body).
Proof.
  unfold no_fence_inside. intros H.
  rewrite string_app_assoc, !string_app_cons, string_app_nil_l.
  rewrite !contains_cons. exact H.
Qed.

Lemma clean_response_plain body :
  no_fence_inside body → clean_response body = (Ok (py_strip body), []).
Proof.
  intros H. unfold clean_response.
  rewrite (strip_without_fence body H). reflexivity.
Qed.

Lemma strip_fenced inner rest :
  py_strip (fence +:+ inner +:+ fence +:+ rest)
  = fence +:+ inner +:+ fence +:+ py_rstrip rest.
Proof.
  unfold py_strip.
  change (py_lstrip (fence +:+ inner +:+ fence +:+ rest))
    with (fence +:+ inner +:+ fence +:+ rest).
  rewrite rstrip_fence, rstrip_before_fence. reflexivity.
Qed.

Lemma clean_response_fenced tag body rest :
  no_fence_inside body →
  tag = "json" ∨ (tag = "" ∧ py_startswith "json" body = false) →
  clean_response (fence +:+ tag +:+ body +:+ fence +:+ rest)
  = (Ok (py_strip body), []).
Proof.
  intros Hb Htag. unfold clean_response.
  rewrite <- (string_app_assoc tag body), strip_fenced.
  change (py_startswith fence
            (fence +:+ (tag +:+ body) +:+ fence +:+ py_rstrip rest))
    with true. cbv iota.
  unfold py_split. rewrite split_at_fence.
  destruct Htag as [->|[-> Hj]].
  - rewrite split_body_then_fence by (apply no_fence_inside_json; exact Hb).
    reflexivity.
  - rewrite string_app_nil_l, split_body_then_fence by exact Hb.
    cbn -[py_startswith py_strip]. rewrite Hj. reflexivity.
Qed.

Lemma analyze_message_with_response w cfg msg t1 t2 :
  clean_response t1 = clean_response t2 →
  _analyze_message (with_response w t1) cfg msg
  = _analyze_message (with_response w t2) cfg msg.
Proof.
  intros H. unfold _analyze_message. simpl.
  change (prompt_of (with_response w t1) cfg msg) with (prompt_of w cfg msg).
  change (prompt_of (with_response w t2) cfg msg) with (prompt_of w cfg msg).
  rewrite H. reflexivity.
Qed.

(** ** Lemmas on the monad and the trace *)

Lemma outcome_bind {A B} (m : M A) (f : A → M B) :
  outcome (m ≫= f)
  = match outcome m with Ok a => outcome (f a) | Raise e => Raise e end.
Proof. destruct m as [[a|e] t]; simpl; [destruct (f a)|]; reflexivity. Qed.

Lemma effects_bind {A B} (m : M A) (f : A → M B) :
  effects (m ≫= f)
  = effects m ++ match outcome m with Ok a => effects (f a) | Raise _ => [] end.
Proof.
  destruct m as [[a|e] t]; simpl; [destruct (f a); reflexivity|].
  rewrite app_nil_r. reflexivity.
Qed.

Lemma count_app p t1 t2 : count p (t1 ++ t2) = (count p t1 + count p t2)%nat.
Proof. unfold count. rewrite List.filter_app, length_app. reflexivity. Qed.

(** ** Lemmas on the classifier *)

Lemma clean_response_effects text : effects (clean_response text) = [].
Proof.
  unfold clean_response. destruct (py_startswith _ _); [|reflexivity].
  unfold list_getitem. destruct (_ !! _); reflexivity.
Qed.

Lemma verdict_is_functional w cfg msg m1 m2 :
  verdict_is w cfg msg m1 → verdict_is w cfg msg m2 → m1 = m2.
Proof.
  intros (c1 & b1 & t1 & H1 & H2 & H3 & H4) (c2 & b2 & t2 & G1 & G2 & G3 & G4).
  congruence.
Qed.

(** A verdict fails the gate exactly when [should_create_ticket] is false,
    or the confidence is no number, or it is below the threshold. *)
Lemma verdict_fails_iff cfg m :
  verdict_passes cfg m = false ↔
  py_truthy (default (JBool false) (m !! "should_create_ticket")) = false
  ∨ as_number (default (JNum 0%Q) (m !! "confidence")) = None
  ∨ ∃ q, as_number (default (JNum 0%Q) (m !! "confidence")) = Some q
         ∧ (q < ai_confidence_threshold cfg)%Q.
Proof.
  unfold verdict_passes.
  destruct (py_truthy (default (JBool false) (m !! "should_create_ticket")));
    simpl; [|split; auto].
  destruct (as_number (default (JNum 0%Q) (m !! "confidence"))) as [q|];
    [|split; auto].
  split.
  - intros H. right. right. exists q. split; [reflexivity|].
    apply Qnot_le_lt. intros Hle. apply Qle_bool_iff in Hle. congruence.
  - intros [H|[H|(q' & Hq & Hlt)]]; [discriminate..|].
    injection Hq as <-. destruct (Qle_bool _ q) eqn:Hle; [|reflexivity].
    apply Qle_bool_iff in Hle. apply Qlt_not_le in Hlt. contradiction.
Qed.

Lemma gate_obj cfg m :
  gate cfg (JObj m) =
  let a := default (JBool false) (m !! "should_create_ticket") in
  let c := default (JNum 0%Q) (m !! "confidence") in
  if py_truthy a then
    match as_number c with
    | Some q => (Ok (JBool (Qle_bool (ai_confidence_threshold cfg) q)), [])
    | None =>
        (Raise (TypeError ("'>=' not supported between instances of '"
                           +:+ py_type_name c +:+ "' and 'float'")), [])
    end
  else (Ok a, []).
Proof.
  unfold gate; simpl.
  destruct (py_truthy (default (JBool false) (m !! "should_create_ticket")));
    [|reflexivity].
  destruct (default (JNum 0%Q) (m !! "confidence")); reflexivity.
Qed.

Lemma gate_not_obj cfg v :
  (∀ m, v ≠ JObj m) → ∃ e, gate cfg v = (Raise e, []).
Proof.
  intros Hv. destruct v; try (eexists; reflexivity). destruct (Hv m eq_refl).
Qed.

(** Whatever the model answers, [_analyze_message] returns: it calls the
    model once, logs one line, and says yes exactly for a verdict that
    passes. *)
Lemma analyze_message_spec w cfg msg :
  ∃ lv line,
    effects (_analyze_message w cfg msg)
      = [Called (MessagesCreate (ai_model cfg) 1024 (prompt_of w cfg msg));
         Logged lv line]
    ∧ ((outcome (_analyze_message w cfg msg) = Ok (false, None)
        ∧ ∀ m, verdict_is w cfg msg m → verdict_passes cfg m = false)
       ∨ (∃ m, verdict_is w cfg msg m ∧ verdict_passes cfg m = true
            ∧ outcome (_analyze_message w cfg msg)
              = Ok (true, Some (ticket_info_of cfg m)))).
Proof.
  unfold _analyze_message, verdict_is.
  generalize (prompt_of w cfg msg) as prompt. intros prompt.
  destruct (messages_create w (ai_model cfg) 1024 prompt)
    as [content|e] eqn:Hc; simpl.
  2:{ do 2 eexists. split; [reflexivity|]. left. split; [reflexivity|].
      intros m (?&?&?&?&_). congruence. }
  destruct content as [|block rest]; simpl.
  { do 2 eexists. split; [reflexivity|]. left. split; [reflexivity|].
    intros m (?&?&?&?&?&_). simplify_eq. }
  pose proof (clean_response_effects block) as He.
  destruct (clean_response block) as [[text|e] t] eqn:Hclean;
    simpl in He; subst t; simpl.
  2:{ do 2 eexists. split; [reflexivity|]. left. split; [reflexivity|].
      intros m (?&?&?&?&?&?&_). simplify_eq/=. rewrite Hclean in *.
      discriminate. }
  assert (Hv : ∀ m,
    (∃ (content : list string) (block0 text0 : string),
       Ok (block :: rest) = Ok content
       ∧ content !! 0%nat = Some block0
       ∧ outcome (clean_response block0) = Ok text0
       ∧ json_loads w text0 = Ok (JObj m)) → json_loads w text = Ok (JObj m)).
  { intros m (?&?&?&?&?&?&?). simplify_eq/=. rewrite Hclean in *.
    simplify_eq/=. congruence. }
  destruct (json_loads w text) as [v|e] eqn:Hj; simpl.
  2:{ do 2 eexists. split; [reflexivity|]. left. split; [reflexivity|].
      intros m Hm. apply Hv in Hm. discriminate. }
  destruct v as [| | | | |m0];
    try (do 2 eexists; (split; [reflexivity|]); left;
         (split; [reflexivity|]); intros m Hm; apply Hv in Hm; discriminate).
  assert (Hm0 : ∃ (content : list string) (block0 text0 : string),
       Ok (block :: rest) = Ok content
       ∧ content !! 0%nat = Some block0
       ∧ outcome (clean_response block0) = Ok text0
       ∧ json_loads w text0 = Ok (JObj m0)).
  { exists (block :: rest), block, text. rewrite Hclean. auto. }
  rewrite gate_obj. unfold verdict_passes. cbv zeta.
  destruct (py_truthy (default (JBool false) (m0 !! "should_create_ticket")))
    eqn:Ha.
  - destruct (as_number (default (JNum 0%Q) (m0 !! "confidence")))
      as [q|] eqn:Hq.
    + destruct (Qle_bool (ai_confidence_threshold cfg) q) eqn:Hle; simpl.
      * do 2 eexists. split; [reflexivity|]. right. exists m0.
        rewrite Ha, Hq, Hle. auto.
      * do 2 eexists. split; [reflexivity|]. left. split; [reflexivity|].
        intros m Hm. apply Hv in Hm. simplify_eq. rewrite Ha, Hq, Hle. auto.
    + simpl. do 2 eexists. split; [reflexivity|]. left. split; [reflexivity|].
      intros m Hm. apply Hv in Hm. simplify_eq. rewrite Ha, Hq. auto.
  - simpl. rewrite Ha. simpl.
    do 2 eexists. split; [reflexivity|]. left. split; [reflexivity|].
    intros m Hm. apply Hv in Hm. simplify_eq. rewrite Ha. auto.
Qed.

Lemma process_message_gate w cfg event channel_name :
  let msg := default "" (ev_text event) in
  let run := _process_message w cfg event channel_name in
  (∃ m, verdict_is w cfg msg m ∧ verdict_passes cfg m = true)
  ∨ (count is_create (effects run) = 0%nat
     ∧ count is_post (effects run) = 0%nat).
Proof.
  intros msg run. subst run. unfold _process_message. fold msg.
  destruct (analyze_message_spec w cfg msg)
    as (lv & line & He & [[Ho Hf] | (m & Hm & Hp & Ho)]).
  - right. destruct (_analyze_message w cfg msg) as [r t].
    simpl in He, Ho. subst r t. split; reflexivity.
  - left. eauto.
Qed.

(** ** Lemmas on ticket creation and notification *)

Lemma build_issue_dict_of_verdict w cfg m rn re ch msg :
  build_issue_dict w cfg (ticket_info_of cfg m) rn re ch msg
  = (Ok (issue_dict_of w cfg m rn re ch msg), []).
Proof.
  unfold build_issue_dict, dict_getitem, ticket_info_of.
  simplify_map_eq. reflexivity.
Qed.

Lemma build_issue_dict_effects w cfg ti rn re ch msg :
  effects (build_issue_dict w cfg ti rn re ch msg) = [].
Proof.
  unfold build_issue_dict, dict_getitem.
  destruct (ti !! "description"); [|reflexivity].
  destruct (ti !! "summary"); [|reflexivity].
  destruct (ti !! "issue_type"); [|reflexivity].
  destruct (ti !! "priority"); reflexivity.
Qed.

Lemma set_issue_status_no_create w i s :
  List.filter is_create (effects (_set_issue_status w i s)) = [].
Proof.
  unfold _set_issue_status.
  destruct (jira_issue w (key i)) as [i'|e]; simpl; [|reflexivity].
  destruct (String.eqb (status_name i') s); simpl; [reflexivity|].
  destruct (jira_transitions w i') as [ts|e]; simpl; [|reflexivity].
  destruct (List.find _ ts) as [t|]; simpl; [|reflexivity].
  destruct (transition_issue w i' (id t)); reflexivity.
Qed.

Lemma set_issue_status_returns w i s :
  outcome (_set_issue_status w i s) = Ok tt.
Proof.
  unfold _set_issue_status.
  destruct (jira_issue w (key i)) as [i'|e]; simpl; [|reflexivity].
  destruct (String.eqb (status_name i') s); simpl; [reflexivity|].
  destruct (jira_transitions w i') as [ts|e]; simpl; [|reflexivity].
  destruct (List.find _ ts) as [t|]; simpl; [|reflexivity].
  destruct (transition_issue w i' (id t)) as [[]|]; reflexivity.
Qed.

Lemma send_notification_no_create w cfg k u m ch uid ts :
  List.filter is_create (effects (_send_notification w cfg k u m ch uid ts)) = [].
Proof.
  unfold _send_notification.
  destruct (chat_postMessage w _ None _ (Some false)); simpl; [|reflexivity].
  destruct (chat_postMessage w ch ts _ None); reflexivity.
Qed.

Lemma send_notification_returns w cfg k u m ch uid ts :
  outcome (_send_notification w cfg k u m ch uid ts) = Ok tt.
Proof.
  unfold _send_notification.
  destruct (chat_postMessage w _ None _ (Some false)) as [[]|]; simpl; [|reflexivity].
  destruct (chat_postMessage w ch ts _ None) as [[]|]; reflexivity.
Qed.

Lemma create_jira_ticket_of_verdict w cfg m rn re ch msg :
  let d := issue_dict_of w cfg m rn re ch msg in
  List.filter is_create
    (effects (_create_jira_ticket w cfg (ticket_info_of cfg m) rn re ch msg))
  = [Called (CreateIssue d)]
  ∧ outcome (_create_jira_ticket w cfg (ticket_info_of cfg m) rn re ch msg)
    = create_issue w d.
Proof.
  intros d. unfold _create_jira_ticket.
  rewrite build_issue_dict_of_verdict. fold d.
  destruct (create_issue w d) as [i|e] eqn:Hc; simpl; rewrite ?Hc; simpl;
    [|split; reflexivity].
  unfold dict_getitem, ticket_info_of. simplify_map_eq. simpl.
  destruct (nonempty (jira_initial_status cfg)) as [s|]; simpl;
    [|split; reflexivity].
  pose proof (set_issue_status_no_create w i s) as Hn.
  pose proof (set_issue_status_returns w i s) as Hr.
  destruct (_set_issue_status w i s) as [r t]. simpl in *. subst r. simpl.
  rewrite app_nil_r, Hn. split; reflexivity.
Qed.

Lemma description_embeds w d rn re ch msg :
  ∃ before after,
    description_of w d rn re ch msg = before +:+ py_str w d +:+ after.
Proof.
  exists ("*Reported by:* " +:+ rn +:+ " (" +:+ re +:+ ")" +:+ nl
          +:+ "*Slack Channel:* #" +:+ ch +:+ nl
          +:+ "*Original Message:*" +:+ nl +:+ "{quote}" +:+ nl
          +:+ msg +:+ nl +:+ "{quote}" +:+ nl +:+ nl +:+ "---" +:+ nl +:+ nl
          +:+ "*AI-Generated Description:*" +:+ nl).
  eexists. unfold description_of. rewrite !string_app_assoc. reflexivity.
Qed.

Lemma verdict_is_sample env clock confidence q summary lookup create post msg :
  py_startswith fence (py_strip (verdict_text confidence summary)) = false →
  py_strip (verdict_text confidence summary) = verdict_text confidence summary →
  verdict_is
    (sample_world env clock (Ok [verdict_text confidence summary])
       (decode_only (verdict_text confidence summary)
          (verdict_object q summary))
       lookup create post)
    sample_config msg (verdict_object q summary).
Proof.
  intros Hf Hs.
  exists [verdict_text confidence summary], (verdict_text confidence summary),
    (verdict_text confidence summary).
  repeat split.
  - unfold clean_response. rewrite Hf, Hs. reflexivity.
  - simpl. unfold decode_only. rewrite String.eqb_refl. reflexivity.
Qed.

(** ** The agent at work *)

(** The message about the export button, threshold 0.7.  With confidence 0.9:
    one issue of type Bug and priority High, one broadcast and one threaded
    reply.  With confidence 0.5: no issue and no post. *)
Example export_bug_filed :
  let run := handle_message world_sure sample_config sample_event in
  outcome run = Ok tt
  ∧ count is_create (effects run) = 1%nat
  ∧ count is_post (effects run) = 2%nat
  ∧ (∃ d, Called (CreateIssue d) ∈ effects run
          ∧ issuetype_name d = JStr "Bug"
          ∧ priority_name d = Some (JStr "High")).
Proof.
  cbv zeta. repeat split; try reflexivity.
  eexists. split.
  - apply list_elem_of_In. do 6 right. left. reflexivity.
  - split; reflexivity.
Qed.

Example export_bug_below_threshold :
  let run := handle_message world_unsure sample_config sample_event in
  outcome run = Ok tt
  ∧ count is_create (effects run) = 0%nat
  ∧ count is_post (effects run) = 0%nat.
Proof. cbv zeta. repeat split; reflexivity. Qed.

(** * The claims *)

(** ** C1: the gate *)

(** C1. For every inbound message, an issue-create call is made only when the
    classifier's verdict has a true [should_create_ticket] and a confidence
    at or above the configured threshold; for a verdict that has
    [should_create_ticket] false or a confidence below the threshold, no
    issue-create call and no notification post is made. *)
Theorem C1_ticket_only_above_threshold (w : World) (cfg : Config)
    (event : slack_event) :
  let msg := default "" (ev_text event) in
  let run := handle_message w cfg event in
  ((0 < count is_create (effects run))%nat →
     ∃ m, verdict_is w cfg msg m ∧ verdict_passes cfg m = true)
  ∧ (∀ m, verdict_is w cfg msg m → verdict_passes cfg m = false →
       count is_create (effects run) = 0%nat
       ∧ count is_post (effects run) = 0%nat).
Proof.
  intros msg run.
  assert (H : (∃ m, verdict_is w cfg msg m ∧ verdict_passes cfg m = true)
              ∨ (count is_create (effects run) = 0%nat
                 ∧ count is_post (effects run) = 0%nat)).
  { subst run. unfold handle_message.
    destruct (nonempty (ev_subtype event)); [right; split; reflexivity|].
    destruct (nonempty (ev_bot_id event)); [right; split; reflexivity|].
    destruct (conversations_info w (ev_channel event)) as [name|e];
      [|right; split; reflexivity].
    simpl. case_bool_decide; [|right; split; reflexivity].
    destruct (process_message_gate w cfg event name) as [Hp|[Hc Hn]];
      [left; exact Hp|right].
    destruct (_process_message w cfg event name) as [r t]. simpl in *.
    split; assumption. }
  split.
  - intros Hpos. destruct H as [H|[H _]]; [exact H|]. rewrite H in Hpos. lia.
  - intros m Hm Hfail. destruct H as [(m' & Hm' & Hpass)|H]; [|exact H].
    rewrite (verdict_is_functional _ _ _ _ _ Hm Hm') in Hfail. congruence.
Qed.

Lemma C1_ticket_only_above_threshold_witness :
  ( (0 < count is_create
           (effects (handle_message world_sure sample_config sample_event)))%nat
    ∧ ∃ m, verdict_is world_sure sample_config
             "the export button crashes with a 500 error" m
           ∧ verdict_passes sample_config m = true )
  ∧ ( verdict_is world_unsure sample_config
        "the export button crashes with a 500 error"
        (verdict_object (5 # 10) "Export button returns 500")
      ∧ verdict_passes sample_config
          (verdict_object (5 # 10) "Export button returns 500") = false
      ∧ count is_create
          (effects (handle_message world_unsure sample_config sample_event))
        = 0%nat
      ∧ count is_post
          (effects (handle_message world_unsure sample_config sample_event))
        = 0%nat ).
Proof.
  split.
  - assert (H : (0 < count is_create
             (effects (handle_message world_sure sample_config sample_event)))%nat).
    { vm_compute. lia. }
    split; [exact H|].
    exact (proj1 (C1_ticket_only_above_threshold world_sure sample_config
                    sample_event) H).
  - assert (Hv : verdict_is world_unsure sample_config
        "the export button crashes with a 500 error"
        (verdict_object (5 # 10) "Export button returns 500")).
    { apply verdict_is_sample; reflexivity. }
    assert (Hp : verdict_passes sample_config
          (verdict_object (5 # 10) "Export button returns 500") = false).
    { reflexivity. }
    split; [exact Hv|]. split; [exact Hp|].
    exact (proj2 (C1_ticket_only_above_threshold world_unsure sample_config
                    sample_event) _ Hv Hp).
Defined.

(** ** C2: the create call *)

(** The formal reading of C2 as stated fails: with a verdict that passes the
    gate, no issue-create call is made when the look-up of the author
    fails. *)
Lemma C2_counterexample_no_user :
  verdict_is world_no_user sample_config
    "the export button crashes with a 500 error"
    (verdict_object (9 # 10) "Export button returns 500")
  ∧ verdict_passes sample_config
      (verdict_object (9 # 10) "Export button returns 500") = true
  ∧ count is_create
      (effects (_process_message world_no_user sample_config sample_event "bugs"))
    = 0%nat.
Proof.
  split; [apply verdict_is_sample; reflexivity|].
  split; reflexivity.
Qed.

(** C2, amended.  For a verdict that passes the gate, once the look-up of
    the message's author has answered with a [real_name], exactly one
    issue-create call is made.  Its summary, issue type and priority are the
    verdict's, the configured default issue type and priority standing in
    when the verdict has no such key, and its description is the contextual
    text of lines 265-279 around the verdict's description. *)
Theorem C2_one_create_call_matching_verdict (w : World) (cfg : Config)
    (event : slack_event) (channel_name : string) (m : gmap string json)
    (u : user) (name : string) :
  let msg := default "" (ev_text event) in
  verdict_is w cfg msg m →
  verdict_passes cfg m = true →
  users_info w (ev_user event) = Ok u →
  real_name u = Some name →
  ∃ d,
    List.filter is_create (effects (_process_message w cfg event channel_name))
      = [Called (CreateIssue d)]
    ∧ project_key d = jira_project_key cfg
    ∧ summary d = default JNull (m !! "summary")
    ∧ issuetype_name d
      = default (JStr (jira_default_issue_type cfg)) (m !! "issue_type")
    ∧ priority_name d
      = Some (default (JStr (jira_default_priority cfg)) (m !! "priority"))
    ∧ description d
      = description_of w (default JNull (m !! "description")) name
          (default "unknown" (profile_email u)) channel_name msg
    ∧ ∃ before after,
        description d
        = before +:+ py_str w (default JNull (m !! "description")) +:+ after.
Proof.
  intros msg Hm Hpass Hu Hname.
  exists (issue_dict_of w cfg m name (default "unknown" (profile_email u))
            channel_name msg).
  split; [|repeat split; try reflexivity; apply description_embeds].
  unfold _process_message. fold msg.
  destruct (analyze_message_spec w cfg msg)
    as (lv & line & He & [[Ho Hf] | (m' & Hm' & Hp & Ho)]).
  { rewrite (Hf m Hm) in Hpass. discriminate. }
  rewrite (verdict_is_functional _ _ _ _ _ Hm' Hm) in Ho. clear m' Hm' Hp.
  destruct (_analyze_message w cfg msg) as [r t]. simpl in He, Ho. subst r t.
  pose proof (create_jira_ticket_of_verdict w cfg m name
                (default "unknown" (profile_email u)) channel_name msg)
    as [Hf Hc].
  cbn -[_create_jira_ticket _send_notification].
  rewrite Hu. cbn -[_create_jira_ticket _send_notification].
  rewrite Hname. cbn -[_create_jira_ticket _send_notification].
  destruct (_create_jira_ticket w cfg (ticket_info_of cfg m) name
              (default "unknown" (profile_email u)) channel_name msg)
    as [[i|e] t].
  - cbn -[_send_notification] in *.
    pose proof (send_notification_no_create w cfg (key i)
                  (jira_url cfg +:+ "/browse/" +:+ key i) msg channel_name
                  (ev_user event) (ev_ts event)) as Hn.
    pose proof (send_notification_returns w cfg (key i)
                  (jira_url cfg +:+ "/browse/" +:+ key i) msg channel_name
                  (ev_user event) (ev_ts event)) as Hr.
    destruct (_send_notification w cfg (key i) _ msg channel_name
                (ev_user event) (ev_ts event)) as [r t'].
    simpl in Hn, Hr. subst r. simpl.
    rewrite !List.filter_app. rewrite Hf, Hn. reflexivity.
  - simpl in *. rewrite !List.filter_app, Hf. reflexivity.
Qed.

Lemma C2_one_create_call_matching_verdict_witness :
  ∃ d,
    List.filter is_create
      (effects (_process_message world_sure sample_config sample_event "bugs"))
      = [Called (CreateIssue d)]
    ∧ project_key d = "PROJ"
    ∧ summary d = JStr "Export button returns 500"
    ∧ issuetype_name d = JStr "Bug"
    ∧ priority_name d = Some (JStr "High")
    ∧ description d
      = description_of world_sure (JStr "Export fails with HTTP 500")
          "Ann Lee" "ann@example.com" "bugs"
          "the export button crashes with a 500 error"
    ∧ ∃ before after,
        description d = before +:+ "Export fails with HTTP 500" +:+ after.
Proof.
  assert (Hv : verdict_is world_sure sample_config
        "the export button crashes with a 500 error"
        (verdict_object (9 # 10) "Export button returns 500")).
  { apply verdict_is_sample; reflexivity. }
  exact (C2_one_create_call_matching_verdict world_sure sample_config
           sample_event "bugs"
           (verdict_object (9 # 10) "Export button returns 500")
           sample_user "Ann Lee" Hv eq_refl eq_refl eq_refl).
Defined.

(** ** C3: the priority field *)

(** C3 (the code falls short of the claim).  In a project whose screens have
    no priority field the create call fails as a whole: the [try] of
    [_create_jira_ticket] guards the dict entry, not the call, so the dict
    still carries the priority, the tracker rejects it, the error leaves
    [_create_jira_ticket], and the router logs it without any
    notification. *)
Theorem C3_priority_rejection_fails_create :
  let msg := "the export button crashes with a 500 error" in
  let run := _create_jira_ticket world_no_priority sample_config
               (ticket_info_of sample_config
                  (verdict_object (9 # 10) "Export button returns 500"))
               "Ann Lee" "ann@example.com" "bugs" msg in
  outcome run
    = Raise (RemoteError
        "Field 'priority' cannot be set. It is not on the appropriate screen, or unknown.")
  ∧ (∃ d, effects run = [Called (CreateIssue d)]
          ∧ priority_name d = Some (JStr "High"))
  ∧ count is_post
      (effects (handle_message world_no_priority sample_config sample_event))
    = 0%nat
  ∧ List.last
      (effects (handle_message world_no_priority sample_config sample_event))
      (Logged DEBUG "")
    = Logged ERROR
        "Error processing message: Field 'priority' cannot be set. It is not on the appropriate screen, or unknown.".
Proof.
  cbv zeta. split; [reflexivity|]. split; [eexists; split; reflexivity|].
  split; reflexivity.
Qed.

(** ** C4: missing secrets *)

(** With the model's key missing, start-up fails only after the Slack app
    and the Jira session have been set up. *)
Lemma C4_counterexample_jira_session_first :
  missing world_no_model_key "ANTHROPIC_API_KEY"
  ∧ outcome (main world_no_model_key sample_config)
    = Raise (ValueError "ANTHROPIC_API_KEY must be set in .env file")
  ∧ effects (main world_no_model_key sample_config)
    = [Called (SlackApp "xoxb-1" "s3");
       Logged INFO "Slack app initialized";
       Called (JiraConnect "https://example.atlassian.net" "bot@example.com"
                 "jt");
       Logged INFO
         "Jira client initialized for https://example.atlassian.net";
       Logged ERROR
         "Fatal error: ANTHROPIC_API_KEY must be set in .env file"]
  ∧ count is_call (effects (main world_no_model_key sample_config)) = 2%nat.
Proof. repeat split; reflexivity. Qed.

Ltac name_missing :=
  let try_name n :=
    (exists n; eexists;
     split; [apply list_elem_of_In; simpl; auto 10|];
     split; [assumption|]; split; reflexivity) in
  first
    [ try_name "SLACK_BOT_TOKEN" | try_name "SLACK_SIGNING_SECRET"
    | try_name "JIRA_EMAIL" | try_name "JIRA_API_TOKEN"
    | try_name "ANTHROPIC_API_KEY" | try_name "SLACK_APP_TOKEN" ].

Ltac startup_fails :=
  simpl; repeat split;
  match goal with
  | |- ∃ e : exn, _ => eexists; reflexivity
  | |- clients_connect _ → _ =>
      let Hslack := fresh "Hslack" in
      let Hjira := fresh "Hjira" in
      let Hmodel := fresh "Hmodel" in
      intros (Hslack & Hjira & Hmodel);
      first [ name_missing
            | rewrite Hslack in *; discriminate
            | rewrite Hjira in *; discriminate
            | rewrite Hmodel in *; discriminate ]
  | |- _ ∨ _ → _ => intros [?|?]; first [reflexivity | congruence]
  | |- _ ∧ _ → _ =>
      let Hslack := fresh "Hslack" in
      let Hjira := fresh "Hjira" in
      let Hmodel := fresh "Hmodel" in
      intros ([? ?] & [? ?] & [? ?] & [? ?] & Hslack & Hjira & Hmodel);
      first [ reflexivity
            | congruence
            | rewrite Hslack in *; discriminate
            | rewrite Hjira in *; discriminate
            | rewrite Hmodel in *; discriminate ]
  end.

(** C4, amended.  If a required secret is missing, start-up fails with an
    error and the socket-mode connection is never started.  Each secret is
    checked just before the client that needs it is built, in the order
    Slack app, Jira, Anthropic, socket mode: with a Slack bot token or
    signing secret missing no client is built at all, with a Jira secret
    missing no Jira session is opened, and when the clients built before the
    failing check come up, the error is a [ValueError] whose message names a
    missing secret.  When the four secrets of the Slack app and of Jira are
    present, the Jira session has been opened by the time the missing secret
    is found. *)
Theorem C4_missing_secret_fails_startup (w : World) (cfg : Config)
    (name : string) :
  name ∈ required_secrets →
  missing w name →
  let run := main w cfg in
  (∃ e, outcome run = Raise e)
  ∧ count is_socket_start (effects run) = 0%nat
  ∧ (clients_connect w →
       ∃ name' msg,
         name' ∈ required_secrets ∧ missing w name'
         ∧ outcome run = Raise (ValueError msg)
         ∧ py_contains name' msg = true)
  ∧ (missing w "SLACK_BOT_TOKEN" ∨ missing w "SLACK_SIGNING_SECRET" →
       count is_call (effects run) = 0%nat)
  ∧ (missing w "JIRA_EMAIL" ∨ missing w "JIRA_API_TOKEN" →
       count is_jira_connect (effects run) = 0%nat)
  ∧ (present w "SLACK_BOT_TOKEN" ∧ present w "SLACK_SIGNING_SECRET"
     ∧ present w "JIRA_EMAIL" ∧ present w "JIRA_API_TOKEN"
     ∧ clients_connect w →
       count is_jira_connect (effects run) = 1%nat).
Proof.
  intros Hin Hmiss run. subst run. unfold missing, present in *.
  unfold main, __init__, start, _init_slack, _init_jira, _init_anthropic.
  destruct (nonempty (environ w !! "SLACK_BOT_TOKEN")) as [t1|] eqn:E1;
    [|startup_fails].
  destruct (nonempty (environ w !! "SLACK_SIGNING_SECRET")) as [t2|] eqn:E2;
    [|startup_fails].
  destruct (slack_App w t1 t2) as [[]|e1] eqn:A1; [|startup_fails].
  destruct (nonempty (environ w !! "JIRA_EMAIL")) as [t3|] eqn:E3;
    [|startup_fails].
  destruct (nonempty (environ w !! "JIRA_API_TOKEN")) as [t4|] eqn:E4;
    [|startup_fails].
  destruct (jira_JIRA w (jira_url cfg) t3 t4) as [[]|e2] eqn:A2;
    [|startup_fails].
  destruct (nonempty (environ w !! "ANTHROPIC_API_KEY")) as [t5|] eqn:E5;
    [|startup_fails].
  destruct (anthropic_Anthropic w t5) as [[]|e3] eqn:A3; [|startup_fails].
  destruct (nonempty (environ w !! "SLACK_APP_TOKEN")) as [t6|] eqn:E6;
    [|startup_fails].
  exfalso. apply list_elem_of_In in Hin. simpl in Hin.
  destruct Hin as [<-|[<-|[<-|[<-|[<-|[<-|[]]]]]]]; congruence.
Qed.

Lemma C4_missing_secret_fails_startup_witness :
  let run := main world_no_model_key sample_config in
  (∃ e, outcome run = Raise e)
  ∧ count is_socket_start (effects run) = 0%nat
  ∧ (clients_connect world_no_model_key →
       ∃ name' msg,
         name' ∈ required_secrets ∧ missing world_no_model_key name'
         ∧ outcome run = Raise (ValueError msg)
         ∧ py_contains name' msg = true)
  ∧ (missing world_no_model_key "SLACK_BOT_TOKEN"
     ∨ missing world_no_model_key "SLACK_SIGNING_SECRET" →
       count is_call (effects run) = 0%nat)
  ∧ (missing world_no_model_key "JIRA_EMAIL"
     ∨ missing world_no_model_key "JIRA_API_TOKEN" →
       count is_jira_connect (effects run) = 0%nat)
  ∧ (present world_no_model_key "SLACK_BOT_TOKEN"
     ∧ present world_no_model_key "SLACK_SIGNING_SECRET"
     ∧ present world_no_model_key "JIRA_EMAIL"
     ∧ present world_no_model_key "JIRA_API_TOKEN"
     ∧ clients_connect world_no_model_key →
       count is_jira_connect (effects run) = 1%nat).
Proof.
  refine (C4_missing_secret_fails_startup world_no_model_key sample_config
            "ANTHROPIC_API_KEY" _ _).
  - apply list_elem_of_In. simpl. auto 10.
  - reflexivity.
Defined.

(** ** C5: failures of the classifier *)

(** C5.  [_analyze_message] never raises, whatever the model and the decoder
    do.  When the call to the model fails, or when the text it answered
    (stripped, and taken out of its code fence if it has one) does not decode
    as JSON, it returns [(False, None)] after logging the error. *)
Theorem C5_classifier_failures_absorbed (w : World) (cfg : Config)
    (message_text : string) :
  let ask := MessagesCreate (ai_model cfg) 1024 (prompt_of w cfg message_text) in
  (∃ r, outcome (_analyze_message w cfg message_text) = Ok r)
  ∧ (∀ e,
       messages_create w (ai_model cfg) 1024 (prompt_of w cfg message_text)
         = Raise e →
       _analyze_message w cfg message_text
       = (Ok (false, None),
          [Called ask; Logged ERROR ("Error in AI analysis: " +:+ str_exn e)]))
  ∧ (∀ content block text e,
       messages_create w (ai_model cfg) 1024 (prompt_of w cfg message_text)
         = Ok content →
       content !! 0%nat = Some block →
       outcome (clean_response block) = Ok text →
       json_loads w text = Raise e →
       _analyze_message w cfg message_text
       = (Ok (false, None),
          [Called ask; Logged ERROR ("Error in AI analysis: " +:+ str_exn e)])).
Proof.
  intros ask. subst ask. split; [|split].
  - destruct (analyze_message_spec w cfg message_text)
      as (lv & line & _ & [[Ho _] | (m & _ & _ & Ho)]); eauto.
  - intros e He. unfold _analyze_message. rewrite He. reflexivity.
  - intros content block text e Hc Hb Ht Hj. unfold _analyze_message.
    rewrite Hc. destruct content as [|b rest]; [discriminate|].
    simpl in Hb. injection Hb as ->. simpl.
    pose proof (clean_response_effects block) as Heff.
    destruct (clean_response block) as [r t]. simpl in Ht, Heff. subst r t.
    simpl. rewrite Hj. reflexivity.
Qed.

Lemma C5_classifier_failures_absorbed_witness :
  _analyze_message world_offline sample_config "the export button crashes"
  = (Ok (false, None),
     [Called (MessagesCreate "claude" 1024
                (prompt_of world_offline sample_config
                   "the export button crashes"));
      Logged ERROR "Error in AI analysis: Connection error."])
  ∧ _analyze_message world_prose sample_config "the export button crashes"
    = (Ok (false, None),
       [Called (MessagesCreate "claude" 1024
                  (prompt_of world_prose sample_config
                     "the export button crashes"));
        Logged ERROR
          "Error in AI analysis: Expecting value: line 1 column 1 (char 0)"]).
Proof.
  split.
  - exact (proj1 (proj2 (C5_classifier_failures_absorbed world_offline
                           sample_config "the export button crashes"))
             (RemoteError "Connection error.") eq_refl).
  - exact (proj2 (proj2 (C5_classifier_failures_absorbed world_prose
                           sample_config "the export button crashes"))
             ["I think this is a bug."] "I think this is a bug."
             "I think this is a bug."
             (JSONDecodeError "Expecting value: line 1 column 1 (char 0)")
             eq_refl eq_refl eq_refl eq_refl).
Defined.

(** ** C6: fenced answers *)

(** The formal reading of C6 as stated fails twice: for a payload that
    itself contains a code fence, and for a language tag other than
    [json]. *)
Lemma C6_counterexample_inner_fence_and_tag :
  let ask w text := outcome (_analyze_message (with_response w text)
                               sample_config "the export button crashes") in
  let quoting := verdict_text "0.9" fenced_summary in
  let plain := verdict_text "0.9" "Export button returns 500" in
  (ask world_fenced_summary quoting
   = Ok (true, Some (ticket_info_of sample_config
                       (verdict_object (9 # 10) fenced_summary)))
   ∧ ask world_fenced_summary
       ("```json" +:+ nl +:+ quoting +:+ nl +:+ "```")
     = Ok (false, None))
  ∧ (ask world_sure plain
     = Ok (true, Some (ticket_info_of sample_config
                         (verdict_object (9 # 10) "Export button returns 500")))
     ∧ ask world_sure ("```JSON" +:+ nl +:+ plain +:+ nl +:+ "```")
       = Ok (false, None)).
Proof. cbv zeta. repeat split; vm_compute; reflexivity. Qed.

(** C6, amended.  An answer that opens with a code fence, followed by the
    tag [json] or by no tag, then by a body inside which no fence starts, then
    by the closing fence (and anything after it), is analysed exactly as the
    body sent without fences.  (Without a tag the body must not itself begin
    with the letters [json], which no JSON text does.) *)
Theorem C6_fenced_answer_parses_as_payload (w : World) (cfg : Config)
    (message_text tag body rest : string) :
  no_fence_inside body →
  tag = "json" ∨ (tag = "" ∧ py_startswith "json" body = false) →
  _analyze_message
    (with_response w (fence +:+ tag +:+ body +:+ fence +:+ rest))
    cfg message_text
  = _analyze_message (with_response w body) cfg message_text.
Proof.
  intros Hb Htag. apply analyze_message_with_response.
  rewrite (clean_response_fenced tag body rest Hb Htag).
  rewrite (clean_response_plain body Hb). reflexivity.
Qed.

Lemma C6_fenced_answer_parses_as_payload_witness :
  let plain := verdict_text "0.9" "Export button returns 500" in
  _analyze_message
    (with_response world_sure
       (fence +:+ "json" +:+ (nl +:+ plain +:+ nl) +:+ fence +:+ ""))
    sample_config "the export button crashes"
  = _analyze_message (with_response world_sure (nl +:+ plain +:+ nl))
      sample_config "the export button crashes"
  ∧ _analyze_message
      (with_response world_sure
         (fence +:+ "" +:+ (nl +:+ plain +:+ nl) +:+ fence +:+ nl))
      sample_config "the export button crashes"
    = _analyze_message (with_response world_sure (nl +:+ plain +:+ nl))
        sample_config "the export button crashes"
  ∧ outcome (_analyze_message (with_response world_sure (nl +:+ plain +:+ nl))
               sample_config "the export button crashes")
    = Ok (true, Some (ticket_info_of sample_config
                        (verdict_object (9 # 10) "Export button returns 500"))).
Proof.
  cbv zeta. split; [|split].
  - refine (C6_fenced_answer_parses_as_payload world_sure sample_config
              "the export button crashes" "json" _ "" _ _).
    + reflexivity.
    + left. reflexivity.
  - refine (C6_fenced_answer_parses_as_payload world_sure sample_config
              "the export button crashes" "" _ nl _ _).
    + reflexivity.
    + right. split; reflexivity.
  - vm_compute. reflexivity.
Defined.

(** ** C7: the status transition *)

Lemma find_none_when_no_target (desired : string) (ts : list transition) :
  (∀ t, t ∈ ts → to_name t ≠ desired) →
  List.find (fun t => String.eqb (to_name t) desired) ts = None.
Proof.
  induction ts as [|t ts IH]; intros H; simpl; [reflexivity|].
  destruct (String.eqb_spec (to_name t) desired) as [Heq|_].
  - destruct (H t); [left|exact Heq].
  - apply IH. intros t' Ht'. apply H. right. exact Ht'.
Qed.

(** C7.  [_set_issue_status] begins by fetching the issue again.  If the
    fetched status is the desired one it asks for no transition at all.  If
    the tracker offers no transition to the desired status it returns
    normally after logging one warning that carries the issue key, the
    current status and the names of all the offered target statuses. *)
Theorem C7_set_issue_status (w : World) (i : issue) (desired : string) :
  let run := _set_issue_status w i desired in
  (∃ rest, effects run = Called (FetchIssue (key i)) :: rest)
  ∧ (∀ i', jira_issue w (key i) = Ok i' → status_name i' = desired →
       outcome run = Ok tt
       ∧ count is_transition (effects run) = 0%nat
       ∧ effects run
         = [Called (FetchIssue (key i));
            Logged DEBUG ("Issue " +:+ key i' +:+ " already in '"
                          +:+ desired +:+ "' status")])
  ∧ (∀ i' ts, jira_issue w (key i) = Ok i' → status_name i' ≠ desired →
       jira_transitions w i' = Ok ts →
       (∀ t, t ∈ ts → to_name t ≠ desired) →
       outcome run = Ok tt
       ∧ effects run
         = [Called (FetchIssue (key i));
            Called (Transitions i');
            Logged WARNING
              ("Cannot transition " +:+ key i' +:+ " to '" +:+ desired
               +:+ "'. " +:+ "Current status: '" +:+ status_name i' +:+ "'. "
               +:+ "Available transitions: "
               +:+ py_join ", " (List.map to_name ts))]).
Proof.
  intros run. subst run. unfold _set_issue_status. split; [|split].
  - destruct (jira_issue w (key i)) as [i'|e]; simpl; [|eauto].
    destruct (String.eqb (status_name i') desired); simpl; [eauto|].
    destruct (jira_transitions w i') as [ts|e]; simpl; [|eauto].
    destruct (List.find _ ts) as [t|]; simpl; [|eauto].
    destruct (transition_issue w i' (id t)); simpl; eauto.
  - intros i' Hfetch Hsame. rewrite Hfetch; simpl.
    rewrite Hsame, String.eqb_refl. repeat split; reflexivity.
  - intros i' ts Hfetch Hother Hts Hnone. rewrite Hfetch; simpl.
    destruct (String.eqb_spec (status_name i') desired) as [Heq|_];
      [contradiction|].
    rewrite Hts; simpl. rewrite find_none_when_no_target by assumption.
    split; reflexivity.
Qed.

Lemma C7_set_issue_status_witness :
  (outcome (_set_issue_status world_sure sample_issue "Backlog") = Ok tt
   ∧ count is_transition
       (effects (_set_issue_status world_sure sample_issue "Backlog")) = 0%nat
   ∧ effects (_set_issue_status world_sure sample_issue "Backlog")
     = [Called (FetchIssue "PROJ-7");
        Logged DEBUG "Issue PROJ-7 already in 'Backlog' status"])
  ∧ (outcome (_set_issue_status world_sure sample_issue "To Do") = Ok tt
     ∧ effects (_set_issue_status world_sure sample_issue "To Do")
       = [Called (FetchIssue "PROJ-7");
          Called (Transitions sample_issue);
          Logged WARNING
            "Cannot transition PROJ-7 to 'To Do'. Current status: 'Backlog'. Available transitions: In Progress, Done"]).
Proof.
  split.
  - exact (proj1 (proj2 (C7_set_issue_status world_sure sample_issue "Backlog"))
             sample_issue eq_refl eq_refl).
  - refine (proj2 (proj2 (C7_set_issue_status world_sure sample_issue "To Do"))
              sample_issue sample_transitions eq_refl _ eq_refl _).
    + discriminate.
    + intros t Ht. apply list_elem_of_In in Ht. simpl in Ht.
      destruct Ht as [<-|[<-|[]]]; discriminate.
Defined.

(** ** C8: the excerpt *)

(** C8.  The excerpt in the broadcast notification is the first 200
    characters of the message followed by three dots when the message is
    longer than 200 characters, and the whole message, with no dots,
    otherwise. *)
Theorem C8_notification_excerpt (issue_key issue_url original_message
    channel_name : string) (user_id : option string) :
  let header := notification_header issue_key issue_url channel_name user_id in
  let text := notification_text issue_key issue_url original_message
                channel_name user_id in
  ((200 < String.length original_message)%nat →
     text = header +:+ "```"
            +:+ String.substring 0 200 original_message +:+ "..." +:+ "```"
     ∧ String.length (String.substring 0 200 original_message) = 200%nat)
  ∧ ((String.length original_message ≤ 200)%nat →
       text = header +:+ "```" +:+ original_message +:+ "```").
Proof.
  intros header text. subst header text.
  unfold notification_text, notification_header.
  rewrite !string_app_assoc. split; intros H.
  - apply Nat.ltb_lt in H as Hb. rewrite Hb.
    rewrite <- slice_to_substring. split; [reflexivity|].
    apply slice_to_length. lia.
  - assert (Hb : (200 <? String.length original_message)%nat = false)
      by (apply Nat.ltb_ge; exact H).
    rewrite Hb, slice_to_all by exact H. reflexivity.
Qed.

Lemma C8_notification_excerpt_witness :
  String.length long_message = 250%nat
  ∧ String.length short_message = 150%nat
  ∧ (notification_text "PROJ-7" "https://example.atlassian.net/browse/PROJ-7"
       long_message "bugs" (Some "U2147483697")
     = notification_header "PROJ-7"
         "https://example.atlassian.net/browse/PROJ-7" "bugs"
         (Some "U2147483697")
       +:+ "```" +:+ String.substring 0 200 long_message +:+ "..." +:+ "```"
     ∧ String.length (String.substring 0 200 long_message) = 200%nat)
  ∧ notification_text "PROJ-7" "https://example.atlassian.net/browse/PROJ-7"
      short_message "bugs" (Some "U2147483697")
    = notification_header "PROJ-7"
        "https://example.atlassian.net/browse/PROJ-7" "bugs"
        (Some "U2147483697")
      +:+ "```" +:+ short_message +:+ "```".
Proof.
  split; [reflexivity|]. split; [reflexivity|]. split.
  - refine (proj1 (C8_notification_excerpt "PROJ-7"
              "https://example.atlassian.net/browse/PROJ-7" long_message
              "bugs" (Some "U2147483697")) _).
    vm_compute. lia.
  - refine (proj2 (C8_notification_excerpt "PROJ-7"
              "https://example.atlassian.net/browse/PROJ-7" short_message
              "bugs" (Some "U2147483697")) _).
    vm_compute. lia.
Defined.

(** ** C9: the ticket builder *)

(** Two drafts built from the same verdict, reporter, channel and text one
    second apart differ. *)
Lemma C9_counterexample_clock :
  let ti := ticket_info_of sample_config
              (verdict_object (9 # 10) "Export button returns 500") in
  now world_sure ≠ now world_later
  ∧ outcome (build_issue_dict world_sure sample_config ti
               "Ann Lee" "ann@example.com" "bugs" "export crashes")
    ≠ outcome (build_issue_dict world_later sample_config ti
                 "Ann Lee" "ann@example.com" "bugs" "export crashes").
Proof.
  cbv zeta. split; [discriminate|]. vm_compute. intros H. discriminate H.
Qed.

(** C9, amended.  The ticket-building step calls no service and logs
    nothing, and its draft is determined by its arguments, the configuration
    and the reading of the clock: two invocations that read the same time
    build identical drafts, whatever the services would answer ([repr] is
    Python's, the same in both). *)
Theorem C9_ticket_draft_fixed_by_inputs_and_clock (w1 w2 : World)
    (cfg : Config) (ticket_info : gmap string json)
    (reporter_name reporter_email slack_channel slack_message : string) :
  now w1 = now w2 →
  repr w1 = repr w2 →
  build_issue_dict w1 cfg ticket_info reporter_name reporter_email
    slack_channel slack_message
  = build_issue_dict w2 cfg ticket_info reporter_name reporter_email
      slack_channel slack_message
  ∧ effects (build_issue_dict w1 cfg ticket_info reporter_name reporter_email
               slack_channel slack_message) = [].
Proof.
  intros Hnow Hrepr. split; [|apply build_issue_dict_effects].
  unfold build_issue_dict, py_str. rewrite Hnow, Hrepr. reflexivity.
Qed.

Lemma C9_ticket_draft_fixed_by_inputs_and_clock_witness :
  let ti := ticket_info_of sample_config
              (verdict_object (9 # 10) "Export button returns 500") in
  build_issue_dict world_sure sample_config ti
    "Ann Lee" "ann@example.com" "bugs" "export crashes"
  = build_issue_dict world_no_user sample_config ti
      "Ann Lee" "ann@example.com" "bugs" "export crashes"
  ∧ effects (build_issue_dict world_sure sample_config ti
               "Ann Lee" "ann@example.com" "bugs" "export crashes") = [].
Proof.
  exact (C9_ticket_draft_fixed_by_inputs_and_clock world_sure world_no_user
           sample_config _ "Ann Lee" "ann@example.com" "bugs" "export crashes"
           eq_refl eq_refl).
Defined.

(** ** C10: the two posts *)

(** C10.  If the post to the notification channel fails, the threaded reply
    in the source channel is never attempted: the only post in the trace is
    the broadcast, followed by the error line of the single handler. *)
Theorem C10_failed_broadcast_skips_thread_reply (w : World) (cfg : Config)
    (issue_key issue_url original_message channel_name : string)
    (user_id thread_ts : option string) (e : exn) :
  let message := notification_text issue_key issue_url original_message
                   channel_name user_id in
  chat_postMessage w (slack_notification_channel cfg) None message (Some false)
    = Raise e →
  _send_notification w cfg issue_key issue_url original_message channel_name
    user_id thread_ts
  = (Ok tt,
     [Called (ChatPostMessage (slack_notification_channel cfg) None message
                (Some false));
      Logged ERROR ("Error sending notification: " +:+ str_exn e)]).
Proof.
  intros message H. unfold _send_notification. fold message. rewrite H.
  reflexivity.
Qed.

Lemma C10_failed_broadcast_skips_thread_reply_witness :
  _send_notification world_feed_down sample_config "PROJ-7"
    "https://example.atlassian.net/browse/PROJ-7" "export crashes" "bugs"
    (Some "U2147483697") (Some "1700000000.000100")
  = (Ok tt,
     [Called (ChatPostMessage "jira-feed" None
                (notification_text "PROJ-7"
                   "https://example.atlassian.net/browse/PROJ-7"
                   "export crashes" "bugs" (Some "U2147483697"))
                (Some false));
      Logged ERROR "Error sending notification: channel_not_found"]).
Proof.
  exact (C10_failed_broadcast_skips_thread_reply world_feed_down sample_config
           "PROJ-7" "https://example.atlassian.net/browse/PROJ-7"
           "export crashes" "bugs" (Some "U2147483697")
           (Some "1700000000.000100") (RemoteError "channel_not_found")
           eq_refl).
Defined.

(** * Further lemmas *)

Lemma count_nil p : count p [] = 0%nat.
Proof. reflexivity. Qed.

Lemma count_cons p e t :
  count p (e :: t) = ((if p e then 1 else 0) + count p t)%nat.
Proof. unfold count. simpl. destruct (p e); reflexivity. Qed.

Lemma try_except_absorbs (body : M unit) (handler : exn → M unit) :
  (∀ e, outcome (handler e) = Ok tt) → outcome (try_except body handler) = Ok tt.
Proof.
  intros H. destruct body as [[[]|e] t]; simpl; [reflexivity|].
  specialize (H e). destruct (handler e) as [r t']. exact H.
Qed.

Lemma process_message_returns w cfg event channel_name :
  outcome (_process_message w cfg event channel_name) = Ok tt.
Proof.
  unfold _process_message. rewrite outcome_bind. simpl.
  apply try_except_absorbs. intros e. reflexivity.
Qed.
Lemma set_issue_status_counts w i s :
  let t := effects (_set_issue_status w i s) in
  count is_model_call t = 0%nat ∧ count is_create t = 0%nat
  ∧ count is_post t = 0%nat ∧ (count is_transition t ≤ 1)%nat.
Proof.
  unfold _set_issue_status.
  destruct (jira_issue w (key i)) as [i'|e]; simpl; [|repeat split; auto].
  destruct (String.eqb (status_name i') s); simpl; [repeat split; auto|].
  destruct (jira_transitions w i') as [ts|e]; simpl; [|repeat split; auto].
  destruct (List.find _ ts) as [t|]; simpl; [|repeat split; auto].
  destruct (transition_issue w i' (id t)); simpl; repeat split; auto.
Qed.

Lemma send_notification_counts w cfg k u m ch uid ts :
  let t := effects (_send_notification w cfg k u m ch uid ts) in
  count is_model_call t = 0%nat ∧ count is_create t = 0%nat
  ∧ (count is_post t ≤ 2)%nat ∧ count is_transition t = 0%nat.
Proof.
  unfold _send_notification.
  destruct (chat_postMessage w _ None _ (Some false)); simpl;
    [|repeat split; auto].
  destruct (chat_postMessage w ch ts _ None); simpl; repeat split; auto.
Qed.

Lemma create_jira_ticket_counts w cfg ti rn re ch msg :
  let t := effects (_create_jira_ticket w cfg ti rn re ch msg) in
  count is_model_call t = 0%nat ∧ (count is_create t ≤ 1)%nat
  ∧ count is_post t = 0%nat ∧ (count is_transition t ≤ 1)%nat.
Proof.
  unfold _create_jira_ticket.
  pose proof (build_issue_dict_effects w cfg ti rn re ch msg) as Hb.
  destruct (build_issue_dict w cfg ti rn re ch msg) as [[d|e] t0].
  2:{ simpl in *. subst t0. repeat split; auto. }
  simpl in Hb. subst t0. simpl.
  destruct (create_issue w d) as [i|e]; simpl; [|repeat split; auto].
  unfold dict_getitem. destruct (ti !! "summary") as [sm|]; simpl;
    [|repeat split; auto].
  destruct (nonempty (jira_initial_status cfg)) as [s|]; simpl;
    [|repeat split; auto].
  pose proof (set_issue_status_counts w i s) as (H1 & H2 & H3 & H4).
  pose proof (set_issue_status_returns w i s) as Hr.
  destruct (_set_issue_status w i s) as [r t]. simpl in *. subst r. simpl.
  rewrite app_nil_r. rewrite !count_cons. simpl. repeat split; lia.
Qed.
Ltac count_lia :=
  unfold count in *; simpl in *;
  repeat first [rewrite List.filter_app | rewrite length_app]; simpl;
  repeat split; lia.

Lemma process_message_counts w cfg event channel_name :
  let t := effects (_process_message w cfg event channel_name) in
  count is_model_call t = 1%nat ∧ (count is_create t ≤ 1)%nat
  ∧ (count is_post t ≤ 2)%nat ∧ (count is_transition t ≤ 1)%nat.
Proof.
  unfold _process_message.
  set (msg := default "" (ev_text event)).
  destruct (analyze_message_spec w cfg msg)
    as (lv & line & He & [[Ho _] | (m & _ & _ & Ho)]);
    destruct (_analyze_message w cfg msg) as [r t]; simpl in He, Ho;
    subst r t.
  { simpl. repeat split; auto. }
  cbn -[_create_jira_ticket _send_notification].
  destruct (users_info w (ev_user event)) as [u|e];
    cbn -[_create_jira_ticket _send_notification]; [|repeat split; auto].
  destruct (real_name u) as [name|];
    cbn -[_create_jira_ticket _send_notification]; [|repeat split; auto].
  pose proof (create_jira_ticket_counts w cfg (ticket_info_of cfg m) name
                (default "unknown" (profile_email u)) channel_name msg)
    as (C1 & C2 & C3 & C4).
  destruct (_create_jira_ticket w cfg (ticket_info_of cfg m) name
              (default "unknown" (profile_email u)) channel_name msg)
    as [[i|e] t]; cbn -[_send_notification] in *.
  - pose proof (send_notification_counts w cfg (key i)
                  (jira_url cfg +:+ "/browse/" +:+ key i) msg channel_name
                  (ev_user event) (ev_ts event)) as (N1 & N2 & N3 & N4).
    pose proof (send_notification_returns w cfg (key i)
                  (jira_url cfg +:+ "/browse/" +:+ key i) msg channel_name
                  (ev_user event) (ev_ts event)) as Hr.
    destruct (_send_notification w cfg (key i) _ msg channel_name
                (ev_user event) (ev_ts event)) as [r t'].
    simpl in *. subst r. simpl.
    count_lia.
  - count_lia.
Qed.

Lemma build_issue_dict_keys w cfg ti rn re ch msg d t :
  build_issue_dict w cfg ti rn re ch msg = (Ok d, t) →
  ti !! "summary" = Some (summary d) ∧ t = []
  ∧ is_Some (ti !! "description") ∧ ti !! "issue_type" = Some (issuetype_name d)
  ∧ priority_name d = ti !! "priority".
Proof.
  unfold build_issue_dict, dict_getitem.
  destruct (ti !! "description"); [|discriminate].
  destruct (ti !! "summary"); [|discriminate].
  destruct (ti !! "issue_type"); [|discriminate].
  destruct (ti !! "priority"); simpl; intros H; injection H as <- <-;
    simpl; eauto 10.
Qed.

Lemma create_jira_ticket_first_call w cfg ti rn re ch msg d :
  outcome (build_issue_dict w cfg ti rn re ch msg) = Ok d →
  ∃ rest,
    effects (_create_jira_ticket w cfg ti rn re ch msg)
    = Called (CreateIssue d) :: rest.
Proof.
  intros Hb. unfold _create_jira_ticket.
  destruct (build_issue_dict w cfg ti rn re ch msg) as [r t] eqn:Hbuild.
  simpl in Hb. subst r.
  destruct (build_issue_dict_keys _ _ _ _ _ _ _ _ _ Hbuild)
    as (Hsum & -> & _).
  simpl. destruct (create_issue w d) as [i|e]; simpl; [|eauto].
  unfold dict_getitem. rewrite Hsum. simpl.
  destruct (nonempty (jira_initial_status cfg)) as [s|]; simpl; [|eauto].
  destruct (_set_issue_status w i s) as [[[]|e] t]; simpl; eauto.
Qed.

Lemma startswith_inv p s :
  py_startswith p s = true → ∃ r, s = p +:+ r.
Proof.
  revert s. induction p as [|c p IH]; intros s H; [exists s; reflexivity|].
  destruct s as [|c' s]; simpl in H; [discriminate|].
  apply andb_true_iff in H as [Hc Hp]. apply Ascii.eqb_eq in Hc as <-.
  destruct (IH s Hp) as [r ->]. exists r. reflexivity.
Qed.

Lemma split_go_nonempty sep skip s :
  ∃ piece rest, py_split_go sep skip s = piece :: rest.
Proof.
  revert skip. induction s as [|c s IH]; intros skip; simpl; [eauto|].
  destruct skip as [|k]; [|apply IH].
  destruct (py_startswith sep (String c s)); [eauto|].
  destruct (IH 0%nat) as (piece & rest & ->). eauto.
Qed.

Lemma clean_response_returns text :
  ∃ cleaned, clean_response text = (Ok cleaned, []).
Proof.
  unfold clean_response.
  destruct (py_startswith fence (py_strip text)) eqn:Hf; [|eauto].
  destruct (startswith_inv _ _ Hf) as [r ->].
  unfold py_split. rewrite split_at_fence.
  destruct (split_go_nonempty fence 0 r) as (piece & rest & ->).
  simpl. eauto.
Qed.

Lemma analyze_message_outcome w cfg msg m :
  verdict_is w cfg msg m →
  outcome (_analyze_message w cfg msg)
  = if verdict_passes cfg m
    then Ok (true, Some (ticket_info_of cfg m))
    else Ok (false, None).
Proof.
  intros Hm.
  destruct (analyze_message_spec w cfg msg)
    as (lv & line & _ & [[Ho Hf] | (m' & Hm' & Hp & Ho)]).
  - rewrite (Hf m Hm). exact Ho.
  - rewrite (verdict_is_functional _ _ _ _ _ Hm Hm'), Hp. exact Ho.
Qed.

Lemma ticket_info_of_keys cfg m k :
  k ∈ ticket_keys → is_Some (ticket_info_of cfg m !! k).
Proof.
  intros Hk. apply list_elem_of_In in Hk. simpl in Hk.
  unfold ticket_info_of.
  destruct Hk as [<-|[<-|[<-|[<-|[]]]]]; simplify_map_eq; eauto.
Qed.

(** The trace of [_process_message] for a verdict that passes, once the
    author of the message is known. *)
Lemma process_message_pass w cfg event channel_name m u name :
  let msg := default "" (ev_text event) in
  let email := default "unknown" (profile_email u) in
  let create := _create_jira_ticket w cfg (ticket_info_of cfg m) name email
                  channel_name msg in
  verdict_is w cfg msg m →
  verdict_passes cfg m = true →
  users_info w (ev_user event) = Ok u →
  real_name u = Some name →
  ∃ lv line,
    effects (_process_message w cfg event channel_name)
    = [Logged INFO (processing_line channel_name msg);
       Called (MessagesCreate (ai_model cfg) 1024 (prompt_of w cfg msg));
       Logged lv line;
       Logged INFO ("AI determined ticket should be created: "
                    +:+ py_str w (default JNull (m !! "summary")));
       Called (UsersInfo (ev_user event))]
      ++ effects create
      ++ match outcome create with
         | Ok i =>
             effects (_send_notification w cfg (key i) (browse_url cfg (key i))
                        msg channel_name (ev_user event) (ev_ts event))
             ++ [Logged INFO (created_line (key i))]
         | Raise e => [Logged ERROR (processing_error_line e)]
         end.
Proof.
  intros msg email create Hm Hpass Hu Hname. subst create.
  unfold _process_message. fold msg.
  pose proof (analyze_message_outcome w cfg msg m Hm) as Ho.
  rewrite Hpass in Ho.
  destruct (analyze_message_spec w cfg msg) as (lv & line & He & _).
  exists lv, line.
  destruct (_analyze_message w cfg msg) as [r t]. simpl in He, Ho. subst r t.
  cbn -[_create_jira_ticket _send_notification py_slice_to].
  rewrite Hu. cbn -[_create_jira_ticket _send_notification py_slice_to].
  rewrite Hname. cbn -[_create_jira_ticket _send_notification py_slice_to].
  fold email.
  assert (Hs : ticket_info_of cfg m !! "summary"
               = Some (default JNull (m !! "summary"))).
  { unfold ticket_info_of. simplify_map_eq. reflexivity. }
  rewrite Hs. cbn -[_create_jira_ticket _send_notification py_slice_to].
  destruct (_create_jira_ticket w cfg (ticket_info_of cfg m) name email
              channel_name msg) as [[i|e] t];
    cbn -[_send_notification py_slice_to]; [|reflexivity].
  fold (browse_url cfg (key i)).
  pose proof (send_notification_returns w cfg (key i) (browse_url cfg (key i))
                msg channel_name (ev_user event) (ev_ts event)) as Hr.
  destruct (_send_notification w cfg (key i) (browse_url cfg (key i)) msg
              channel_name (ev_user event) (ev_ts event)) as [r t'].
  simpl in Hr. subst r. cbn -[py_slice_to].
  rewrite ?app_nil_r. reflexivity.
Qed.

Lemma count_zero_filter p t : count p t = 0%nat → List.filter p t = [].
Proof. unfold count. destruct (List.filter p t); [reflexivity|discriminate]. Qed.

Lemma send_notification_posts w cfg k u m ch uid ts :
  List.filter is_post (effects (_send_notification w cfg k u m ch uid ts))
  = Called (ChatPostMessage (slack_notification_channel cfg) None
              (notification_text k u m ch uid) (Some false))
    :: match chat_postMessage w (slack_notification_channel cfg) None
               (notification_text k u m ch uid) (Some false) with
       | Ok _ => [Called (ChatPostMessage ch ts (reply_text k u) None)]
       | Raise _ => []
       end.
Proof.
  unfold _send_notification.
  destruct (chat_postMessage w _ None _ (Some false)); simpl; [|reflexivity].
  fold (reply_text k u).
  destruct (chat_postMessage w ch ts (reply_text k u) None); reflexivity.
Qed.

(** The trace of [_process_message] for a verdict that passes when the author
    of the message cannot be told. *)
Lemma process_message_no_author w cfg event channel_name m e :
  let msg := default "" (ev_text event) in
  verdict_is w cfg msg m →
  verdict_passes cfg m = true →
  users_info w (ev_user event) = Raise e
  ∨ (∃ u, users_info w (ev_user event) = Ok u ∧ real_name u = None
          ∧ e = KeyError "real_name") →
  ∃ lv line,
    effects (_process_message w cfg event channel_name)
    = [Logged INFO (processing_line channel_name msg);
       Called (MessagesCreate (ai_model cfg) 1024 (prompt_of w cfg msg));
       Logged lv line;
       Logged INFO ("AI determined ticket should be created: "
                    +:+ py_str w (default JNull (m !! "summary")));
       Called (UsersInfo (ev_user event));
       Logged ERROR (processing_error_line e)].
Proof.
  intros msg Hm Hpass Hu.
  unfold _process_message. fold msg.
  pose proof (analyze_message_outcome w cfg msg m Hm) as Ho.
  rewrite Hpass in Ho.
  destruct (analyze_message_spec w cfg msg) as (lv & line & He & _).
  exists lv, line.
  destruct (_analyze_message w cfg msg) as [r t]. simpl in He, Ho. subst r t.
  assert (Hs : ticket_info_of cfg m !! "summary"
               = Some (default JNull (m !! "summary"))).
  { unfold ticket_info_of. simplify_map_eq. reflexivity. }
  cbn -[_create_jira_ticket _send_notification py_slice_to]. rewrite Hs.
  destruct Hu as [Hu|(u & Hu & Hname & ->)]; rewrite Hu;
    cbn -[_create_jira_ticket _send_notification py_slice_to];
    [reflexivity|].
  rewrite Hname. reflexivity.
Qed.

(** What [_create_jira_ticket] does once the issue dict is built. *)
Lemma create_jira_ticket_run w cfg ti rn re ch msg d :
  outcome (build_issue_dict w cfg ti rn re ch msg) = Ok d →
  _create_jira_ticket w cfg ti rn re ch msg
  = match create_issue w d with
    | Raise e => (Raise e, [Called (CreateIssue d)])
    | Ok i =>
        (Ok i,
         Called (CreateIssue d)
         :: Logged INFO ("Created Jira ticket " +:+ key i +:+ ": "
                         +:+ py_str w (summary d))
         :: match nonempty (jira_initial_status cfg) with
            | Some s => effects (_set_issue_status w i s)
            | None => []
            end)
    end.
Proof.
  intros Hb. unfold _create_jira_ticket.
  destruct (build_issue_dict w cfg ti rn re ch msg) as [r t] eqn:Hbuild.
  simpl in Hb. subst r.
  destruct (build_issue_dict_keys _ _ _ _ _ _ _ _ _ Hbuild)
    as (Hsum & -> & _).
  simpl. destruct (create_issue w d) as [i|e]; simpl; [|reflexivity].
  unfold dict_getitem. rewrite Hsum. simpl.
  destruct (nonempty (jira_initial_status cfg)) as [s|]; simpl;
    [|reflexivity].
  pose proof (set_issue_status_returns w i s) as Hr.
  destruct (_set_issue_status w i s) as [r t]. simpl in *. subst r. simpl.
  rewrite app_nil_r. reflexivity.
Qed.

Lemma calls_of_app t1 t2 : calls_of (t1 ++ t2) = calls_of t1 ++ calls_of t2.
Proof. unfold calls_of. apply omap_app. Qed.

Lemma last_snoc (t : list effect) (e d : effect) : List.last (t ++ [e]) d = e.
Proof. apply List.last_last. Qed.

(** * Further properties of the code *)

(** ** The router *)

(** X1.  The model is called exactly once for an event the router admits (no
    subtype, no bot id, a channel whose name is monitored) and never for any
    other event; an event that is not admitted creates no issue and posts
    nothing. *)
Theorem X1_classifier_called_iff_admitted (w : World) (cfg : Config)
    (event : slack_event) :
  let t := effects (handle_message w cfg event) in
  (admitted w cfg event → count is_model_call t = 1%nat)
  ∧ (¬ admitted w cfg event →
       count is_model_call t = 0%nat ∧ count is_create t = 0%nat
       ∧ count is_post t = 0%nat).
Proof.
  unfold admitted, handle_message. cbv zeta. split.
  - intros (Hs & Hb & name & Hc & Hin). rewrite Hs, Hb, Hc. simpl.
    rewrite bool_decide_eq_true_2 by exact Hin.
    pose proof (process_message_counts w cfg event name) as (H & _).
    destruct (_process_message w cfg event name) as [r t]. simpl in *.
    rewrite count_cons. simpl. exact H.
  - intros Hn.
    destruct (nonempty (ev_subtype event)); [repeat split; reflexivity|].
    destruct (nonempty (ev_bot_id event)); [repeat split; reflexivity|].
    destruct (conversations_info w (ev_channel event)) as [name|e];
      [|repeat split; reflexivity].
    simpl. case_bool_decide as Hin; [|repeat split; reflexivity].
    destruct Hn. eauto.
Qed.

Lemma X1_classifier_called_iff_admitted_witness :
  (admitted world_sure sample_config sample_event
   ∧ count is_model_call
       (effects (handle_message world_sure sample_config sample_event)) = 1%nat)
  ∧ (¬ admitted world_sure support_only_config sample_event
     ∧ count is_model_call
         (effects (handle_message world_sure support_only_config sample_event))
       = 0%nat
     ∧ count is_create
         (effects (handle_message world_sure support_only_config sample_event))
       = 0%nat
     ∧ count is_post
         (effects (handle_message world_sure support_only_config sample_event))
       = 0%nat).
Proof.
  assert (Ha : admitted world_sure sample_config sample_event).
  { split; [reflexivity|]. split; [reflexivity|]. exists "bugs".
    split; [reflexivity|]. apply list_elem_of_In. left. reflexivity. }
  assert (Hn : ¬ admitted world_sure support_only_config sample_event).
  { intros (_ & _ & name & Hc & Hin). injection Hc as <-.
    apply list_elem_of_In in Hin. destruct Hin as [Hin|[]]. discriminate. }
  split.
  - split; [exact Ha|].
    exact (proj1 (X1_classifier_called_iff_admitted world_sure sample_config
                    sample_event) Ha).
  - split; [exact Hn|].
    exact (proj2 (X1_classifier_called_iff_admitted world_sure
                    support_only_config sample_event) Hn).
Defined.

(** X2.  An event that carries a non-empty [subtype] or a non-empty [bot_id]
    is dropped before anything is done: the handler returns with an empty
    trace, without even asking for the channel's name. *)
Theorem X2_edits_and_bot_messages_cause_no_call (w : World) (cfg : Config)
    (event : slack_event) :
  is_Some (nonempty (ev_subtype event)) ∨ is_Some (nonempty (ev_bot_id event)) →
  handle_message w cfg event = (Ok tt, []).
Proof.
  unfold handle_message. intros [[s Hs]|[b Hb]].
  - rewrite Hs. destruct (nonempty (ev_bot_id event)); reflexivity.
  - rewrite Hb. destruct (nonempty (ev_subtype event)); reflexivity.
Qed.

Lemma X2_edits_and_bot_messages_cause_no_call_witness :
  handle_message world_sure sample_config edited_event = (Ok tt, [])
  ∧ handle_message world_sure sample_config bot_event = (Ok tt, []).
Proof.
  split.
  - apply (X2_edits_and_bot_messages_cause_no_call world_sure sample_config
             edited_event).
    left. exists "message_changed". reflexivity.
  - apply (X2_edits_and_bot_messages_cause_no_call world_sure sample_config
             bot_event).
    right. exists "B01". reflexivity.
Defined.

(** X3.  The handler lets exactly one failure through: it raises [e] if and
    only if the event passed the subtype and bot filter and the look-up of
    the channel's name raised [e].  Everything after that look-up is
    absorbed. *)
Theorem X3_handler_raises_only_on_channel_lookup (w : World) (cfg : Config)
    (event : slack_event) (e : exn) :
  outcome (handle_message w cfg event) = Raise e
  ↔ nonempty (ev_subtype event) = None
    ∧ nonempty (ev_bot_id event) = None
    ∧ conversations_info w (ev_channel event) = Raise e.
Proof.
  unfold handle_message.
  destruct (nonempty (ev_subtype event));
    [split; [discriminate|intros (? & _); discriminate]|].
  destruct (nonempty (ev_bot_id event));
    [split; [discriminate|intros (_ & ? & _); discriminate]|].
  destruct (conversations_info w (ev_channel event)) as [name|e'].
  - simpl. case_bool_decide.
    + pose proof (process_message_returns w cfg event name) as Hr.
      destruct (_process_message w cfg event name) as [r t]. simpl in *.
      subst r. split; [discriminate|intros (_ & _ & ?); discriminate].
    + simpl. split; [discriminate|intros (_ & _ & ?); discriminate].
  - simpl. split.
    + intros H. injection H as ->. auto.
    + intros (_ & _ & H). injection H as ->. reflexivity.
Qed.

Lemma X3_handler_raises_only_on_channel_lookup_witness :
  outcome (handle_message
             (with_channel_lookup world_sure
                (Raise (RemoteError "channel_not_found")))
             sample_config sample_event)
  = Raise (RemoteError "channel_not_found").
Proof.
  apply (proj2 (X3_handler_raises_only_on_channel_lookup
                  (with_channel_lookup world_sure
                     (Raise (RemoteError "channel_not_found")))
                  sample_config sample_event
                  (RemoteError "channel_not_found"))).
  repeat split; reflexivity.
Defined.

(** X4.  [_process_message] never raises, whatever the model, the chat
    platform and the tracker do, and the first thing it does is log the
    channel and the first 100 characters of the message. *)
Theorem X4_process_message_absorbs_every_failure (w : World) (cfg : Config)
    (event : slack_event) (channel_name : string) :
  outcome (_process_message w cfg event channel_name) = Ok tt
  ∧ ∃ rest,
      effects (_process_message w cfg event channel_name)
      = Logged INFO ("Processing message from #" +:+ channel_name +:+ ": "
                     +:+ py_slice_to 100 (default "" (ev_text event)) +:+ "...")
        :: rest.
Proof.
  split; [apply process_message_returns|].
  unfold _process_message. rewrite effects_bind. simpl. eauto.
Qed.

(** X5.  Handling one event makes at most one call to the model, creates at
    most one issue, asks for at most one transition and posts at most two
    messages. *)
Theorem X5_call_budget_per_event (w : World) (cfg : Config)
    (event : slack_event) :
  within_budget (effects (handle_message w cfg event)).
Proof.
  unfold within_budget, handle_message.
  destruct (nonempty (ev_subtype event)); [count_lia|].
  destruct (nonempty (ev_bot_id event)); [count_lia|].
  destruct (conversations_info w (ev_channel event)) as [name|e];
    [|count_lia].
  simpl. case_bool_decide; [|count_lia].
  pose proof (process_message_counts w cfg event name) as (H1 & H2 & H3 & H4).
  destruct (_process_message w cfg event name) as [r t]. simpl in *.
  count_lia.
Qed.

(** ** The status transition *)

Lemma find_first_target (desired : string) (before after : list transition)
    (t : transition) :
  (∀ t', t' ∈ before → to_name t' ≠ desired) →
  to_name t = desired →
  List.find (fun t => String.eqb (to_name t) desired) (before ++ t :: after)
  = Some t.
Proof.
  intros Hb Ht. induction before as [|b before IH]; simpl.
  - rewrite Ht, String.eqb_refl. reflexivity.
  - destruct (String.eqb_spec (to_name b) desired) as [Heq|_].
    + destruct (Hb b); [left|exact Heq].
    + apply IH. intros t' Ht'. apply Hb. right. exact Ht'.
Qed.

(** X6.  When the fetched status differs from the desired one and the tracker
    offers transitions to it, [_set_issue_status] applies the first offered
    transition whose target is the desired status, on the fetched issue, and
    no other; when that call succeeds it logs the move from the fetched
    status. *)
Theorem X6_first_matching_transition_is_applied (w : World) (i i' : issue)
    (desired : string) (before after : list transition) (t : transition) :
  jira_issue w (key i) = Ok i' →
  status_name i' ≠ desired →
  jira_transitions w i' = Ok (before ++ t :: after) →
  (∀ t', t' ∈ before → to_name t' ≠ desired) →
  to_name t = desired →
  let run := _set_issue_status w i desired in
  calls_of (effects run)
  = [FetchIssue (key i); Transitions i'; TransitionIssue i' (id t)]
  ∧ (transition_issue w i' (id t) = Ok tt →
       run = (Ok tt,
              [Called (FetchIssue (key i)); Called (Transitions i');
               Called (TransitionIssue i' (id t));
               Logged INFO ("Transitioned " +:+ key i' +:+ " from '"
                            +:+ status_name i' +:+ "' to '" +:+ desired
                            +:+ "'")])).
Proof.
  intros Hfetch Hother Hts Hbefore Ht run. subst run.
  unfold _set_issue_status. rewrite Hfetch. simpl.
  destruct (String.eqb_spec (status_name i') desired) as [Heq|_];
    [contradiction|].
  rewrite Hts. simpl.
  rewrite (find_first_target desired before after t Hbefore Ht). simpl.
  split.
  - destruct (transition_issue w i' (id t)) as [[]|e]; reflexivity.
  - intros Hok. rewrite Hok. reflexivity.
Qed.

Lemma X6_first_matching_transition_is_applied_witness :
  let w := with_tracker world_sure
             (fun k => Ok {| key := k; status_name := "Backlog" |})
             (fun _ => Ok transitions_with_target)
             (fun _ _ => Ok tt) in
  calls_of (effects (_set_issue_status w sample_issue "To Do"))
  = [FetchIssue "PROJ-7"; Transitions sample_issue;
     TransitionIssue sample_issue "21"]
  ∧ (transition_issue w sample_issue "21" = Ok tt →
       _set_issue_status w sample_issue "To Do"
       = (Ok tt,
          [Called (FetchIssue "PROJ-7"); Called (Transitions sample_issue);
           Called (TransitionIssue sample_issue "21");
           Logged INFO "Transitioned PROJ-7 from 'Backlog' to 'To Do'"])).
Proof.
  cbv zeta.
  refine (X6_first_matching_transition_is_applied
            (with_tracker world_sure
               (fun k => Ok {| key := k; status_name := "Backlog" |})
               (fun _ => Ok transitions_with_target)
               (fun _ _ => Ok tt))
            sample_issue sample_issue "To Do"
            [ {| id := "11"; to_name := "In Progress" |} ]
            [ {| id := "41"; to_name := "To Do" |} ]
            {| id := "21"; to_name := "To Do" |}
            eq_refl _ eq_refl _ eq_refl).
  - discriminate.
  - intros t' Ht'. apply list_elem_of_In in Ht'.
    destruct Ht' as [<-|[]]. discriminate.
Defined.

(** X7.  [_set_issue_status] never raises.  A failure of the re-fetch, of the
    query for the transitions or of the transition itself ends it with one
    error line that names the issue (the key it was given when the re-fetch
    failed, the fetched key afterwards) and the error; after a failed
    re-fetch nothing else is asked of the tracker. *)
Theorem X7_status_failures_are_logged (w : World) (i : issue)
    (desired : string) :
  let run := _set_issue_status w i desired in
  outcome run = Ok tt
  ∧ (∀ e, jira_issue w (key i) = Raise e →
       effects run
       = [Called (FetchIssue (key i));
          Logged ERROR (status_error_line (key i) e)])
  ∧ (∀ i' e, jira_issue w (key i) = Ok i' → status_name i' ≠ desired →
       jira_transitions w i' = Raise e →
       effects run
       = [Called (FetchIssue (key i)); Called (Transitions i');
          Logged ERROR (status_error_line (key i') e)])
  ∧ (∀ i' ts t e, jira_issue w (key i) = Ok i' → status_name i' ≠ desired →
       jira_transitions w i' = Ok ts →
       List.find (fun t => String.eqb (to_name t) desired) ts = Some t →
       transition_issue w i' (id t) = Raise e →
       effects run
       = [Called (FetchIssue (key i)); Called (Transitions i');
          Called (TransitionIssue i' (id t));
          Logged ERROR (status_error_line (key i') e)]).
Proof.
  cbv zeta. split; [apply set_issue_status_returns|].
  unfold _set_issue_status. split; [|split].
  - intros e He. rewrite He. reflexivity.
  - intros i' e Hfetch Hother Hts. rewrite Hfetch. simpl.
    destruct (String.eqb_spec (status_name i') desired) as [Heq|_];
      [contradiction|].
    rewrite Hts. reflexivity.
  - intros i' ts t e Hfetch Hother Hts Hfind Hap. rewrite Hfetch. simpl.
    destruct (String.eqb_spec (status_name i') desired) as [Heq|_];
      [contradiction|].
    rewrite Hts. simpl. rewrite Hfind. simpl. rewrite Hap. reflexivity.
Qed.

Lemma X7_status_failures_are_logged_witness :
  effects (_set_issue_status
             (with_tracker world_sure
                (fun _ => Raise (RemoteError "Issue does not exist"))
                (fun _ => Ok transitions_with_target) (fun _ _ => Ok tt))
             sample_issue "To Do")
  = [Called (FetchIssue "PROJ-7");
     Logged ERROR "Error setting status for PROJ-7: Issue does not exist"]
  ∧ effects (_set_issue_status
               (with_tracker world_sure
                  (fun k => Ok {| key := k; status_name := "Backlog" |})
                  (fun _ => Raise (RemoteError "HTTP 500"))
                  (fun _ _ => Ok tt))
               sample_issue "To Do")
    = [Called (FetchIssue "PROJ-7"); Called (Transitions sample_issue);
       Logged ERROR "Error setting status for PROJ-7: HTTP 500"]
  ∧ effects (_set_issue_status
               (with_tracker world_sure
                  (fun k => Ok {| key := k; status_name := "Backlog" |})
                  (fun _ => Ok transitions_with_target)
                  (fun _ _ => Raise (RemoteError "Workflow validation failed")))
               sample_issue "To Do")
    = [Called (FetchIssue "PROJ-7"); Called (Transitions sample_issue);
       Called (TransitionIssue sample_issue "21");
       Logged ERROR
         "Error setting status for PROJ-7: Workflow validation failed"].
Proof.
  split; [|split].
  - exact (proj1 (proj2 (X7_status_failures_are_logged
             (with_tracker world_sure
                (fun _ => Raise (RemoteError "Issue does not exist"))
                (fun _ => Ok transitions_with_target) (fun _ _ => Ok tt))
             sample_issue "To Do"))
             (RemoteError "Issue does not exist") eq_refl).
  - refine (proj1 (proj2 (proj2 (X7_status_failures_are_logged
             (with_tracker world_sure
                (fun k => Ok {| key := k; status_name := "Backlog" |})
                (fun _ => Raise (RemoteError "HTTP 500"))
                (fun _ _ => Ok tt))
             sample_issue "To Do")))
             sample_issue (RemoteError "HTTP 500") eq_refl _ eq_refl).
    discriminate.
  - refine (proj2 (proj2 (proj2 (X7_status_failures_are_logged
             (with_tracker world_sure
                (fun k => Ok {| key := k; status_name := "Backlog" |})
                (fun _ => Ok transitions_with_target)
                (fun _ _ => Raise (RemoteError "Workflow validation failed")))
             sample_issue "To Do")))
             sample_issue transitions_with_target
             {| id := "21"; to_name := "To Do" |}
             (RemoteError "Workflow validation failed")
             eq_refl _ eq_refl eq_refl eq_refl).
    discriminate.
Defined.

(** ** The notifier *)

(** X8.  [_send_notification] never raises.  Once the broadcast has gone
    through, it posts the reply in the source channel, in the thread of the
    original message: when the reply goes through too it logs that the
    notification was sent, and when the reply fails both posts have been
    attempted and the failure is logged. *)
Theorem X8_broadcast_then_thread_reply (w : World) (cfg : Config)
    (issue_key issue_url original_message channel_name : string)
    (user_id thread_ts : option string) :
  let broadcast :=
    ChatPostMessage (slack_notification_channel cfg) None
      (notification_text issue_key issue_url original_message channel_name
         user_id) (Some false) in
  let reply :=
    ChatPostMessage channel_name thread_ts (reply_text issue_key issue_url)
      None in
  let run := _send_notification w cfg issue_key issue_url original_message
               channel_name user_id thread_ts in
  outcome run = Ok tt
  ∧ (chat_postMessage w (slack_notification_channel cfg) None
       (notification_text issue_key issue_url original_message channel_name
          user_id) (Some false) = Ok tt →
     (chat_postMessage w channel_name thread_ts
        (reply_text issue_key issue_url) None = Ok tt →
      effects run
      = [Called broadcast; Called reply;
         Logged INFO ("Sent notification for " +:+ issue_key)])
     ∧ (∀ e, chat_postMessage w channel_name thread_ts
               (reply_text issue_key issue_url) None = Raise e →
        effects run
        = [Called broadcast; Called reply;
           Logged ERROR ("Error sending notification: " +:+ str_exn e)])).
Proof.
  cbv zeta. split; [apply send_notification_returns|].
  intros Hb. unfold _send_notification. rewrite Hb. simpl.
  fold (reply_text issue_key issue_url). split.
  - intros Hr. rewrite Hr. reflexivity.
  - intros e Hr. rewrite Hr. reflexivity.
Qed.

Lemma X8_broadcast_then_thread_reply_witness :
  let url := "https://example.atlassian.net/browse/PROJ-7" in
  let broadcast :=
    ChatPostMessage "jira-feed" None
      (notification_text "PROJ-7" url "export crashes" "bugs"
         (Some "U2147483697")) (Some false) in
  let reply :=
    ChatPostMessage "bugs" (Some "1700000000.000100")
      (reply_text "PROJ-7" url) None in
  effects (_send_notification world_sure sample_config "PROJ-7" url
             "export crashes" "bugs" (Some "U2147483697")
             (Some "1700000000.000100"))
  = [Called broadcast; Called reply;
     Logged INFO "Sent notification for PROJ-7"]
  ∧ effects (_send_notification world_thread_down sample_config "PROJ-7" url
               "export crashes" "bugs" (Some "U2147483697")
               (Some "1700000000.000100"))
    = [Called broadcast; Called reply;
       Logged ERROR "Error sending notification: not_in_channel"].
Proof.
  cbv zeta. split.
  - exact (proj1 (proj2 (X8_broadcast_then_thread_reply world_sure
             sample_config "PROJ-7"
             "https://example.atlassian.net/browse/PROJ-7" "export crashes"
             "bugs" (Some "U2147483697") (Some "1700000000.000100"))
             eq_refl) eq_refl).
  - exact (proj2 (proj2 (X8_broadcast_then_thread_reply world_thread_down
             sample_config "PROJ-7"
             "https://example.atlassian.net/browse/PROJ-7" "export crashes"
             "bugs" (Some "U2147483697") (Some "1700000000.000100"))
             eq_refl) (RemoteError "not_in_channel") eq_refl).
Defined.

(** ** Ticket creation *)

(** X9.  Once the issue dict is built, [_create_jira_ticket] makes exactly
    one create call and its result is the tracker's answer to it: the created
    issue is returned whatever then happens to the status transition, and a
    failure of the create call is raised to the caller before anything is
    logged or asked about the status. *)
Theorem X9_create_result_is_the_trackers (w : World) (cfg : Config)
    (ticket_info : gmap string json)
    (reporter_name reporter_email slack_channel slack_message : string)
    (d : issue_dict) :
  outcome (build_issue_dict w cfg ticket_info reporter_name reporter_email
             slack_channel slack_message) = Ok d →
  let run := _create_jira_ticket w cfg ticket_info reporter_name
               reporter_email slack_channel slack_message in
  outcome run = create_issue w d
  ∧ List.filter is_create (effects run) = [Called (CreateIssue d)]
  ∧ (∀ e, create_issue w d = Raise e → effects run = [Called (CreateIssue d)]).
Proof.
  intros Hb run. subst run. unfold _create_jira_ticket.
  destruct (build_issue_dict w cfg ticket_info reporter_name reporter_email
              slack_channel slack_message) as [r t] eqn:Hbuild.
  simpl in Hb. subst r.
  destruct (build_issue_dict_keys _ _ _ _ _ _ _ _ _ Hbuild)
    as (Hsum & -> & _).
  simpl. destruct (create_issue w d) as [i|e] eqn:Hc; simpl.
  2:{ repeat split; intros; reflexivity. }
  unfold dict_getitem. rewrite Hsum. simpl.
  destruct (nonempty (jira_initial_status cfg)) as [s|]; simpl.
  - pose proof (set_issue_status_no_create w i s) as Hn.
    pose proof (set_issue_status_returns w i s) as Hr.
    destruct (_set_issue_status w i s) as [r t]. simpl in *. subst r. simpl.
    rewrite app_nil_r, Hn. repeat split; intros; discriminate.
  - repeat split; intros; discriminate.
Qed.

Lemma X9_create_result_is_the_trackers_witness :
  let info := ticket_info_of sample_config
                (verdict_object (9 # 10) "Export button returns 500") in
  let d := issue_dict_of world_no_priority sample_config
             (verdict_object (9 # 10) "Export button returns 500")
             "Ann Lee" "ann@example.com" "bugs" "export crashes" in
  let run := _create_jira_ticket world_no_priority sample_config info
               "Ann Lee" "ann@example.com" "bugs" "export crashes" in
  outcome run = create_issue world_no_priority d
  ∧ List.filter is_create (effects run) = [Called (CreateIssue d)]
  ∧ (∀ e, create_issue world_no_priority d = Raise e →
       effects run = [Called (CreateIssue d)]).
Proof.
  cbv zeta.
  exact (X9_create_result_is_the_trackers world_no_priority sample_config
           (ticket_info_of sample_config
              (verdict_object (9 # 10) "Export button returns 500"))
           "Ann Lee" "ann@example.com" "bugs" "export crashes"
           (issue_dict_of world_no_priority sample_config
              (verdict_object (9 # 10) "Export button returns 500")
              "Ann Lee" "ann@example.com" "bugs" "export crashes")
           eq_refl).
Defined.

(** X10.  When no initial status is configured (the key is absent or the
    name is empty), [_create_jira_ticket] asks nothing about the status: after
    a successful create call it only logs the new key and the summary. *)
Theorem X10_no_status_call_without_initial_status (w : World) (cfg : Config)
    (ticket_info : gmap string json)
    (reporter_name reporter_email slack_channel slack_message : string)
    (d : issue_dict) (i : issue) :
  nonempty (jira_initial_status cfg) = None →
  outcome (build_issue_dict w cfg ticket_info reporter_name reporter_email
             slack_channel slack_message) = Ok d →
  create_issue w d = Ok i →
  _create_jira_ticket w cfg ticket_info reporter_name reporter_email
    slack_channel slack_message
  = (Ok i,
     [Called (CreateIssue d);
      Logged INFO ("Created Jira ticket " +:+ key i +:+ ": "
                   +:+ py_str w (summary d))]).
Proof.
  intros Hnone Hb Hc. unfold _create_jira_ticket.
  destruct (build_issue_dict w cfg ticket_info reporter_name reporter_email
              slack_channel slack_message) as [r t] eqn:Hbuild.
  simpl in Hb. subst r.
  destruct (build_issue_dict_keys _ _ _ _ _ _ _ _ _ Hbuild)
    as (Hsum & -> & _).
  simpl. rewrite Hc. simpl. unfold dict_getitem. rewrite Hsum. simpl.
  rewrite Hnone. reflexivity.
Qed.

Lemma X10_no_status_call_without_initial_status_witness :
  _create_jira_ticket world_sure no_status_config
    (ticket_info_of no_status_config
       (verdict_object (9 # 10) "Export button returns 500"))
    "Ann Lee" "ann@example.com" "bugs" "export crashes"
  = (Ok sample_issue,
     [Called (CreateIssue
                (issue_dict_of world_sure no_status_config
                   (verdict_object (9 # 10) "Export button returns 500")
                   "Ann Lee" "ann@example.com" "bugs" "export crashes"));
      Logged INFO "Created Jira ticket PROJ-7: Export button returns 500"]).
Proof.
  exact (X10_no_status_call_without_initial_status world_sure no_status_config
           (ticket_info_of no_status_config
              (verdict_object (9 # 10) "Export button returns 500"))
           "Ann Lee" "ann@example.com" "bugs" "export crashes"
           (issue_dict_of world_sure no_status_config
              (verdict_object (9 # 10) "Export button returns 500")
              "Ann Lee" "ann@example.com" "bugs" "export crashes")
           sample_issue eq_refl eq_refl eq_refl).
Defined.

(** X11.  The bare [except] of [_create_jira_ticket] guards one thing only: a
    [ticket_info] without a ['priority'] key gives an issue dict without a
    priority, and no error.  A [ticket_info] without ['description'],
    ['summary'] or ['issue_type'] makes [_create_jira_ticket] raise the
    [KeyError] of that key before any call is made. *)
Theorem X11_only_a_missing_priority_is_forgiven (w : World) (cfg : Config)
    (ticket_info : gmap string json)
    (reporter_name reporter_email slack_channel slack_message : string) :
  let build := build_issue_dict w cfg ticket_info reporter_name
                 reporter_email slack_channel slack_message in
  let run := _create_jira_ticket w cfg ticket_info reporter_name
               reporter_email slack_channel slack_message in
  (is_Some (ticket_info !! "description") → is_Some (ticket_info !! "summary") →
   is_Some (ticket_info !! "issue_type") → ticket_info !! "priority" = None →
     ∃ d, build = (Ok d, []) ∧ priority_name d = None
          ∧ calls_of (effects run) !! 0%nat = Some (CreateIssue d))
  ∧ (∀ k, k ∈ ["description"; "summary"; "issue_type"] →
       ticket_info !! k = None →
       ∃ k', k' ∈ ["description"; "summary"; "issue_type"]
             ∧ ticket_info !! k' = None
             ∧ run = (Raise (KeyError k'), [])).
Proof.
  cbv zeta. split.
  - intros [a Ha] [b Hb] [c Hc] Hp.
    assert (Hbuild : ∃ d,
      build_issue_dict w cfg ticket_info reporter_name reporter_email
        slack_channel slack_message = (Ok d, [])
      ∧ priority_name d = None).
    { unfold build_issue_dict, dict_getitem. rewrite Ha, Hb, Hc, Hp.
      eexists. split; reflexivity. }
    destruct Hbuild as (d & Hbuild & Hprio). exists d.
    split; [exact Hbuild|]. split; [exact Hprio|].
    destruct (create_jira_ticket_first_call w cfg ticket_info reporter_name
                reporter_email slack_channel slack_message d)
      as [rest ->]; [rewrite Hbuild|]; reflexivity.
  - intros k Hk Hnone.
    unfold _create_jira_ticket, build_issue_dict, dict_getitem.
    destruct (ticket_info !! "description") eqn:Hd.
    2:{ exists "description". split; [apply list_elem_of_In; simpl; auto|]. split; [exact Hd|reflexivity]. }
    destruct (ticket_info !! "summary") eqn:Hs.
    2:{ exists "summary". split; [apply list_elem_of_In; simpl; auto|]. split; [exact Hs|reflexivity]. }
    destruct (ticket_info !! "issue_type") eqn:Ht.
    2:{ exists "issue_type". split; [apply list_elem_of_In; simpl; auto|].
        split; [exact Ht|reflexivity]. }
    apply list_elem_of_In in Hk. simpl in Hk.
    destruct Hk as [<-|[<-|[<-|[]]]]; congruence.
Qed.

Lemma X11_only_a_missing_priority_is_forgiven_witness :
  (∃ d, build_issue_dict world_sure sample_config info_without_priority
          "Ann Lee" "ann@example.com" "bugs" "export crashes" = (Ok d, [])
        ∧ priority_name d = None
        ∧ calls_of (effects (_create_jira_ticket world_sure sample_config
                               info_without_priority "Ann Lee"
                               "ann@example.com" "bugs" "export crashes"))
            !! 0%nat = Some (CreateIssue d))
  ∧ (∃ k', k' ∈ ["description"; "summary"; "issue_type"]
           ∧ info_without_summary !! k' = None
           ∧ _create_jira_ticket world_sure sample_config info_without_summary
               "Ann Lee" "ann@example.com" "bugs" "export crashes"
             = (Raise (KeyError k'), [])).
Proof.
  split.
  - refine (proj1 (X11_only_a_missing_priority_is_forgiven world_sure
                     sample_config info_without_priority "Ann Lee"
                     "ann@example.com" "bugs" "export crashes") _ _ _ _).
    + exists (JStr "Export fails with HTTP 500"). reflexivity.
    + exists (JStr "Export button returns 500"). reflexivity.
    + exists (JStr "Bug"). reflexivity.
    + reflexivity.
  - refine (proj2 (X11_only_a_missing_priority_is_forgiven world_sure
                     sample_config info_without_summary "Ann Lee"
                     "ann@example.com" "bugs" "export crashes")
              "summary" _ _).
    + apply list_elem_of_In. right. left. reflexivity.
    + reflexivity.
Defined.

(** ** The classifier *)

(** X12.  Cleaning the model's answer never fails: a text that starts with a
    code fence always has a piece after that fence, so the index [[1]] is
    never out of range; and a text that, once stripped, does not start with a
    fence is only stripped. *)
Theorem X12_fence_removal_never_fails (text : string) :
  (∃ cleaned, clean_response text = (Ok cleaned, []))
  ∧ (py_startswith fence (py_strip text) = false →
       clean_response text = (Ok (py_strip text), []))
  ∧ (py_startswith fence (py_strip text) = true →
       ∃ piece rest, py_split fence (py_strip text) = "" :: piece :: rest).
Proof.
  split; [apply clean_response_returns|]. split.
  - intros H. unfold clean_response. rewrite H. reflexivity.
  - intros H. destruct (startswith_inv _ _ H) as [r ->].
    unfold py_split. rewrite split_at_fence.
    destruct (split_go_nonempty fence 0 r) as (piece & rest & ->). eauto.
Qed.

Lemma X12_fence_removal_never_fails_witness :
  clean_response ("  {}" +:+ nl) = (Ok "{}", [])
  ∧ ∃ piece rest, py_split fence (py_strip "```") = "" :: piece :: rest.
Proof.
  split.
  - exact (proj1 (proj2 (X12_fence_removal_never_fails ("  {}" +:+ nl)))
             eq_refl).
  - exact (proj2 (proj2 (X12_fence_removal_never_fails "```")) eq_refl).
Defined.



(** X14.  The threshold is inclusive.  For a verdict whose
    [should_create_ticket] is [true] and whose confidence is the number [q],
    [_analyze_message] says yes when [q] equals or exceeds the configured
    threshold and no when [q] is below it. *)
Theorem X14_threshold_is_inclusive (w : World) (cfg : Config)
    (message_text : string) (m : gmap string json) (q : Q) :
  verdict_is w cfg message_text m →
  m !! "should_create_ticket" = Some (JBool true) →
  m !! "confidence" = Some (JNum q) →
  ((q == ai_confidence_threshold cfg)%Q ∨ (ai_confidence_threshold cfg < q)%Q →
     outcome (_analyze_message w cfg message_text)
     = Ok (true, Some (ticket_info_of cfg m)))
  ∧ ((q < ai_confidence_threshold cfg)%Q →
       outcome (_analyze_message w cfg message_text) = Ok (false, None)).
Proof.
  intros Hm Hflag Hconf.
  rewrite (analyze_message_outcome w cfg message_text m Hm).
  unfold verdict_passes. rewrite Hflag, Hconf. simpl. split.
  - intros Hq.
    assert (Hle : Qle_bool (ai_confidence_threshold cfg) q = true).
    { apply Qle_bool_iff. destruct Hq as [Hq|Hq].
      - rewrite Hq. apply Qle_refl.
      - apply Qlt_le_weak. exact Hq. }
    rewrite Hle. reflexivity.
  - intros Hq. destruct (Qle_bool (ai_confidence_threshold cfg) q) eqn:Hle;
      [|reflexivity].
    apply Qle_bool_iff in Hle. apply Qlt_not_le in Hq. contradiction.
Qed.

Lemma X14_threshold_is_inclusive_witness :
  outcome (_analyze_message world_at_threshold sample_config
             "the export button crashes")
  = Ok (true, Some (ticket_info_of sample_config
                      (verdict_object (7 # 10) "Export button returns 500")))
  ∧ outcome (_analyze_message world_unsure sample_config
               "the export button crashes")
    = Ok (false, None).
Proof.
  split.
  - refine (proj1 (X14_threshold_is_inclusive world_at_threshold sample_config
                     "the export button crashes"
                     (verdict_object (7 # 10) "Export button returns 500")
                     (7 # 10) _ eq_refl eq_refl) _).
    + apply verdict_is_sample; reflexivity.
    + left. reflexivity.
  - refine (proj2 (X14_threshold_is_inclusive world_unsure sample_config
                     "the export button crashes"
                     (verdict_object (5 # 10) "Export button returns 500")
                     (5 # 10) _ eq_refl eq_refl) _).
    + apply verdict_is_sample; reflexivity.
    + reflexivity.
Defined.

(** X15.  What a verdict leaves out counts against the ticket.  A verdict
    without the key [should_create_ticket] never yields a ticket, however
    high its confidence; a verdict that says [true] but gives no confidence
    is judged on a confidence of 0, so it yields a ticket only when the
    threshold is 0 or less. *)
Theorem X15_absent_fields_count_against (w : World) (cfg : Config)
    (message_text : string) (m : gmap string json) :
  verdict_is w cfg message_text m →
  (m !! "should_create_ticket" = None →
     outcome (_analyze_message w cfg message_text) = Ok (false, None))
  ∧ (m !! "should_create_ticket" = Some (JBool true) →
     m !! "confidence" = None →
     ((0 < ai_confidence_threshold cfg)%Q →
        outcome (_analyze_message w cfg message_text) = Ok (false, None))
     ∧ ((ai_confidence_threshold cfg <= 0)%Q →
          outcome (_analyze_message w cfg message_text)
          = Ok (true, Some (ticket_info_of cfg m)))).
Proof.
  intros Hm. rewrite (analyze_message_outcome w cfg message_text m Hm).
  unfold verdict_passes. split.
  - intros Hflag. rewrite Hflag. reflexivity.
  - intros Hflag Hconf. rewrite Hflag, Hconf. simpl. split.
    + intros Hq. destruct (Qle_bool (ai_confidence_threshold cfg) 0) eqn:Hle;
        [|reflexivity].
      apply Qle_bool_iff in Hle. apply Qlt_not_le in Hq. contradiction.
    + intros Hq. apply Qle_bool_iff in Hq. rewrite Hq. reflexivity.
Qed.

Lemma X15_absent_fields_count_against_witness :
  outcome (_analyze_message world_flagless sample_config
             "the export button crashes") = Ok (false, None)
  ∧ outcome (_analyze_message world_bare_yes sample_config
               "the export button crashes") = Ok (false, None)
  ∧ outcome (_analyze_message world_bare_yes zero_threshold_config
               "the export button crashes")
    = Ok (true, Some (ticket_info_of zero_threshold_config bare_yes_verdict)).
Proof.
  split; [|split].
  - refine (proj1 (X15_absent_fields_count_against world_flagless
                     sample_config "the export button crashes"
                     flagless_verdict _) eq_refl).
    exists ["{}"], "{}", "{}". repeat split; reflexivity.
  - refine (proj1 (proj2 (X15_absent_fields_count_against world_bare_yes
                     sample_config "the export button crashes"
                     bare_yes_verdict _) eq_refl eq_refl) _).
    + exists ["{}"], "{}", "{}". repeat split; reflexivity.
    + reflexivity.
  - refine (proj2 (proj2 (X15_absent_fields_count_against world_bare_yes
                     zero_threshold_config "the export button crashes"
                     bare_yes_verdict _) eq_refl eq_refl) _).
    + exists ["{}"], "{}", "{}". repeat split; reflexivity.
    + discriminate.
Defined.

(** X16.  [_analyze_message] always returns a pair, either [(True, info)]
    with a dict or [(False, None)], never a mix.  The dict has the four keys
    [summary], [description], [issue_type] and [priority], so the issue dict
    can always be built from it, in any configuration, and always carries a
    priority. *)
Theorem X16_analysis_feeds_the_builder (w : World) (cfg : Config)
    (message_text : string) :
  ∃ decision info,
    outcome (_analyze_message w cfg message_text) = Ok (decision, info)
    ∧ (decision = true ↔ is_Some info)
    ∧ ∀ ticket_info, info = Some ticket_info →
        (∀ k, k ∈ ticket_keys → is_Some (ticket_info !! k))
        ∧ ∀ w' cfg' reporter_name reporter_email slack_channel slack_message,
            ∃ d, build_issue_dict w' cfg' ticket_info reporter_name
                   reporter_email slack_channel slack_message = (Ok d, [])
                 ∧ is_Some (priority_name d).
Proof.
  destruct (analyze_message_spec w cfg message_text)
    as (lv & line & _ & [[Ho _] | (m & _ & _ & Ho)]).
  - exists false, None. split; [exact Ho|]. split.
    + split; [discriminate|]. intros [x Hx]. discriminate.
    + intros ticket_info H. discriminate.
  - exists true, (Some (ticket_info_of cfg m)). split; [exact Ho|]. split.
    + split; eauto.
    + intros ticket_info H. injection H as <-. split.
      * intros k Hk. apply ticket_info_of_keys. exact Hk.
      * intros w' cfg' rn re ch msg.
        unfold build_issue_dict, dict_getitem, ticket_info_of.
        simplify_map_eq. eexists. split; [reflexivity|]. simpl. eauto.
Qed.

(** ** The pipeline *)

(** X17.  No ticket, no notification.  For a verdict that passes the gate,
    if the author of the message cannot be told (the look-up raises, or the
    user has no [real_name]) nothing is asked of the tracker and nothing is
    posted; if the create call raises, nothing is posted.  In both cases the
    last thing [_process_message] does is log the error. *)
Theorem X17_no_notification_without_a_ticket (w : World) (cfg : Config)
    (event : slack_event) (channel_name : string) (m : gmap string json) :
  let msg := default "" (ev_text event) in
  let run := _process_message w cfg event channel_name in
  let model_call := MessagesCreate (ai_model cfg) 1024 (prompt_of w cfg msg) in
  verdict_is w cfg msg m →
  verdict_passes cfg m = true →
  (∀ e,
     users_info w (ev_user event) = Raise e
     ∨ (∃ u, users_info w (ev_user event) = Ok u ∧ real_name u = None
             ∧ e = KeyError "real_name") →
     calls_of (effects run) = [model_call; UsersInfo (ev_user event)]
     ∧ List.last (effects run) (Logged DEBUG "")
       = Logged ERROR (processing_error_line e))
  ∧ (∀ u name e,
       users_info w (ev_user event) = Ok u →
       real_name u = Some name →
       create_issue w
         (issue_dict_of w cfg m name (default "unknown" (profile_email u))
            channel_name msg) = Raise e →
       calls_of (effects run)
       = [model_call; UsersInfo (ev_user event);
          CreateIssue
            (issue_dict_of w cfg m name (default "unknown" (profile_email u))
               channel_name msg)]
       ∧ List.last (effects run) (Logged DEBUG "")
         = Logged ERROR (processing_error_line e)).
Proof.
  intros msg run model_call Hm Hpass. subst run model_call. split.
  - intros e Hu.
    destruct (process_message_no_author w cfg event channel_name m e Hm Hpass
                Hu) as (lv & line & ->).
    split; reflexivity.
  - intros u name e Hu Hname Hc.
    destruct (process_message_pass w cfg event channel_name m u name Hm Hpass
                Hu Hname) as (lv & line & ->).
    fold msg.
    rewrite (create_jira_ticket_run w cfg (ticket_info_of cfg m) name
               (default "unknown" (profile_email u)) channel_name msg
               (issue_dict_of w cfg m name
                  (default "unknown" (profile_email u)) channel_name msg))
      by (rewrite build_issue_dict_of_verdict; reflexivity).
    rewrite Hc. split; reflexivity.
Qed.

Lemma X17_no_notification_without_a_ticket_witness :
  let msg := "the export button crashes with a 500 error" in
  let m := verdict_object (9 # 10) "Export button returns 500" in
  let model_call w := MessagesCreate "claude" 1024
                        (prompt_of w sample_config msg) in
  (calls_of (effects (_process_message world_no_user sample_config
                        sample_event "bugs"))
   = [model_call world_no_user; UsersInfo (Some "U2147483697")]
   ∧ List.last (effects (_process_message world_no_user sample_config
                           sample_event "bugs")) (Logged DEBUG "")
     = Logged ERROR "Error processing message: user_not_found")
  ∧ (calls_of (effects (_process_message world_no_priority sample_config
                          sample_event "bugs"))
     = [model_call world_no_priority; UsersInfo (Some "U2147483697");
        CreateIssue (issue_dict_of world_no_priority sample_config m
                       "Ann Lee" "ann@example.com" "bugs" msg)]
     ∧ List.last (effects (_process_message world_no_priority sample_config
                             sample_event "bugs")) (Logged DEBUG "")
       = Logged ERROR
           "Error processing message: Field 'priority' cannot be set. It is not on the appropriate screen, or unknown.").
Proof.
  cbv zeta. split.
  - refine (proj1 (X17_no_notification_without_a_ticket world_no_user
                     sample_config sample_event "bugs"
                     (verdict_object (9 # 10) "Export button returns 500")
                     _ eq_refl)
              (RemoteError "user_not_found") _).
    + apply verdict_is_sample; reflexivity.
    + left. reflexivity.
  - refine (proj2 (X17_no_notification_without_a_ticket world_no_priority
                     sample_config sample_event "bugs"
                     (verdict_object (9 # 10) "Export button returns 500")
                     _ eq_refl)
              sample_user "Ann Lee"
              (RemoteError
                 "Field 'priority' cannot be set. It is not on the appropriate screen, or unknown.")
              eq_refl eq_refl eq_refl).
    apply verdict_is_sample; reflexivity.
Defined.

(** X18.  A created ticket is always reported.  For a verdict that passes the
    gate, once the author is known and the create call has returned an
    issue, [_process_message] ends by logging that the ticket was created,
    whatever happens to the status transition and to the two posts.  The
    first post is the broadcast about that issue, with the link built from
    its key; the threaded reply follows exactly when the broadcast went
    through. *)
Theorem X18_created_ticket_is_always_reported (w : World) (cfg : Config)
    (event : slack_event) (channel_name : string) (m : gmap string json)
    (u : user) (name : string) (i : issue) :
  let msg := default "" (ev_text event) in
  let run := _process_message w cfg event channel_name in
  let broadcast_text :=
    notification_text (key i) (browse_url cfg (key i)) msg channel_name
      (ev_user event) in
  verdict_is w cfg msg m →
  verdict_passes cfg m = true →
  users_info w (ev_user event) = Ok u →
  real_name u = Some name →
  create_issue w
    (issue_dict_of w cfg m name (default "unknown" (profile_email u))
       channel_name msg) = Ok i →
  List.last (effects run) (Logged DEBUG "") = Logged INFO (created_line (key i))
  ∧ List.filter is_post (effects run)
    = Called (ChatPostMessage (slack_notification_channel cfg) None
                broadcast_text (Some false))
      :: match chat_postMessage w (slack_notification_channel cfg) None
                 broadcast_text (Some false) with
         | Ok _ =>
             [Called (ChatPostMessage channel_name (ev_ts event)
                        (reply_text (key i) (browse_url cfg (key i))) None)]
         | Raise _ => []
         end.
Proof.
  intros msg run broadcast_text Hm Hpass Hu Hname Hc.
  subst run broadcast_text.
  destruct (process_message_pass w cfg event channel_name m u name Hm Hpass
              Hu Hname) as (lv & line & ->).
  fold msg.
  pose proof (create_jira_ticket_counts w cfg (ticket_info_of cfg m) name
                (default "unknown" (profile_email u)) channel_name msg)
    as (_ & _ & Hposts & _).
  apply count_zero_filter in Hposts.
  destruct (create_jira_ticket_of_verdict w cfg m name
              (default "unknown" (profile_email u)) channel_name msg)
    as [_ Ho].
  rewrite Hc in Ho.
  destruct (_create_jira_ticket w cfg (ticket_info_of cfg m) name
              (default "unknown" (profile_email u)) channel_name msg)
    as [r t].
  simpl in Hposts, Ho. subst r. unfold outcome, effects at 1. cbn [fst snd].
  split.
  - rewrite !app_assoc. apply last_snoc.
  - rewrite !List.filter_app.
    change (effects (Ok i, t)) with t.
    rewrite Hposts, send_notification_posts. simpl.
    destruct (chat_postMessage w _ None _ (Some false)); reflexivity.
Qed.

Lemma X18_created_ticket_is_always_reported_witness :
  let msg := "the export button crashes with a 500 error" in
  let run := _process_message world_feed_down sample_config sample_event
               "bugs" in
  List.last (effects run) (Logged DEBUG "")
  = Logged INFO "Successfully created ticket PROJ-7"
  ∧ List.filter is_post (effects run)
    = [Called (ChatPostMessage "jira-feed" None
                 (notification_text "PROJ-7"
                    "https://example.atlassian.net/browse/PROJ-7" msg "bugs"
                    (Some "U2147483697")) (Some false))].
Proof.
  cbv zeta.
  refine (X18_created_ticket_is_always_reported world_feed_down sample_config
            sample_event "bugs"
            (verdict_object (9 # 10) "Export button returns 500")
            sample_user "Ann Lee" sample_issue _ eq_refl eq_refl eq_refl
            eq_refl).
  apply verdict_is_sample; reflexivity.
Defined.

(** X19.  A post implies a ticket.  If [_process_message] posts anything, the
    verdict passed the gate, the author of the message was found, and the
    create call for the issue built from them returned an issue. *)
Theorem X19_post_implies_created_issue (w : World) (cfg : Config)
    (event : slack_event) (channel_name : string) :
  let msg := default "" (ev_text event) in
  (0 < count is_post (effects (_process_message w cfg event channel_name)))%nat →
  ∃ m u name i,
    verdict_is w cfg msg m ∧ verdict_passes cfg m = true
    ∧ users_info w (ev_user event) = Ok u ∧ real_name u = Some name
    ∧ create_issue w
        (issue_dict_of w cfg m name (default "unknown" (profile_email u))
           channel_name msg) = Ok i.
Proof.
  intros msg Hpos.
  destruct (process_message_gate w cfg event channel_name)
    as [(m & Hm & Hpass)|[_ Hz]]; [|fold msg in Hz; lia].
  fold msg in Hm.
  destruct (users_info w (ev_user event)) as [u|e] eqn:Hu.
  2:{ destruct (process_message_no_author w cfg event channel_name m e Hm
                  Hpass (or_introl Hu)) as (lv & line & He).
      rewrite He in Hpos. vm_compute in Hpos. lia. }
  destruct (real_name u) as [name|] eqn:Hname.
  2:{ destruct (process_message_no_author w cfg event channel_name m
                  (KeyError "real_name") Hm Hpass) as (lv & line & He).
      { right. exists u. auto. }
      rewrite He in Hpos. vm_compute in Hpos. lia. }
  destruct (create_issue w
              (issue_dict_of w cfg m name
                 (default "unknown" (profile_email u)) channel_name msg))
    as [i|e] eqn:Hc; [exists m, u, name, i; auto|].
  exfalso.
  destruct (process_message_pass w cfg event channel_name m u name Hm Hpass
              Hu Hname) as (lv & line & He).
  fold msg in He. rewrite He in Hpos.
  rewrite (create_jira_ticket_run w cfg (ticket_info_of cfg m) name
             (default "unknown" (profile_email u)) channel_name msg
             (issue_dict_of w cfg m name
                (default "unknown" (profile_email u)) channel_name msg))
    in Hpos by (rewrite build_issue_dict_of_verdict; reflexivity).
  rewrite Hc in Hpos. vm_compute in Hpos. lia.
Qed.

Lemma X19_post_implies_created_issue_witness :
  ∃ m u name i,
    verdict_is world_sure sample_config
      "the export button crashes with a 500 error" m
    ∧ verdict_passes sample_config m = true
    ∧ users_info world_sure (Some "U2147483697") = Ok u
    ∧ real_name u = Some name
    ∧ create_issue world_sure
        (issue_dict_of world_sure sample_config m name
           (default "unknown" (profile_email u)) "bugs"
           "the export button crashes with a 500 error") = Ok i.
Proof.
  refine (X19_post_implies_created_issue world_sure sample_config sample_event
            "bugs" _).
  vm_compute. lia.
Defined.

(** X22.  A refusal costs one call.  Whenever the analysis says no (a verdict
    below the gate, an answer that cannot be read, a model that cannot be
    reached), [_process_message] has called the model and nothing else: it
    does not look the author up, and its last line is the debug line with the
    first 50 characters of the message. *)
Theorem X22_refused_message_costs_one_call (w : World) (cfg : Config)
    (event : slack_event) (channel_name : string) :
  let msg := default "" (ev_text event) in
  outcome (_analyze_message w cfg msg) = Ok (false, None) →
  ∃ lv line,
    _process_message w cfg event channel_name
    = (Ok tt,
       [Logged INFO (processing_line channel_name msg);
        Called (MessagesCreate (ai_model cfg) 1024 (prompt_of w cfg msg));
        Logged lv line;
        Logged DEBUG ("AI determined no ticket needed for message: "
                      +:+ py_slice_to 50 msg +:+ "...")]).
Proof.
  intros msg Ho. unfold _process_message. fold msg.
  destruct (analyze_message_spec w cfg msg) as (lv & line & He & _).
  exists lv, line.
  destruct (_analyze_message w cfg msg) as [r t]. simpl in He, Ho. subst r t.
  reflexivity.
Qed.

Lemma X22_refused_message_costs_one_call_witness :
  let msg := "the export button crashes with a 500 error" in
  (∃ lv line,
     _process_message world_unsure sample_config sample_event "bugs"
     = (Ok tt,
        [Logged INFO (processing_line "bugs" msg);
         Called (MessagesCreate "claude" 1024
                   (prompt_of world_unsure sample_config msg));
         Logged lv line;
         Logged DEBUG ("AI determined no ticket needed for message: "
                       +:+ py_slice_to 50 msg +:+ "...")]))
  ∧ (∃ lv line,
       _process_message world_offline sample_config sample_event "bugs"
       = (Ok tt,
          [Logged INFO (processing_line "bugs" msg);
           Called (MessagesCreate "claude" 1024
                     (prompt_of world_offline sample_config msg));
           Logged lv line;
           Logged DEBUG ("AI determined no ticket needed for message: "
                         +:+ py_slice_to 50 msg +:+ "...")])).
Proof.
  cbv zeta. split.
  - refine (X22_refused_message_costs_one_call world_unsure sample_config
              sample_event "bugs" _).
    vm_compute. reflexivity.
  - refine (X22_refused_message_costs_one_call world_offline sample_config
              sample_event "bugs" _).
    vm_compute. reflexivity.
Defined.

(** ** Start-up *)

(** X20.  Socket mode is started only after the three clients have come up.
    If [main] starts socket mode, then the six secrets were all set, the
    Slack app, the Jira client and the Anthropic client were built in that
    order from them, each constructor returned, and the result of [main] is
    the result of running socket mode with the app token. *)
Theorem X20_socket_mode_needs_all_clients (w : World) (cfg : Config) :
  (0 < count is_socket_start (effects (main w cfg)))%nat →
  ∃ bot_token signing_secret email api_token api_key app_token,
    nonempty (environ w !! "SLACK_BOT_TOKEN") = Some bot_token
    ∧ nonempty (environ w !! "SLACK_SIGNING_SECRET") = Some signing_secret
    ∧ nonempty (environ w !! "JIRA_EMAIL") = Some email
    ∧ nonempty (environ w !! "JIRA_API_TOKEN") = Some api_token
    ∧ nonempty (environ w !! "ANTHROPIC_API_KEY") = Some api_key
    ∧ nonempty (environ w !! "SLACK_APP_TOKEN") = Some app_token
    ∧ slack_App w bot_token signing_secret = Ok tt
    ∧ jira_JIRA w (jira_url cfg) email api_token = Ok tt
    ∧ anthropic_Anthropic w api_key = Ok tt
    ∧ calls_of (effects (main w cfg))
      = [SlackApp bot_token signing_secret;
         JiraConnect (jira_url cfg) email api_token;
         AnthropicClient api_key;
         SocketModeStart app_token]
    ∧ outcome (main w cfg) = socket_mode_start w app_token.
Proof.
  unfold main, __init__, start, _init_slack, _init_jira, _init_anthropic.
  destruct (nonempty (environ w !! "SLACK_BOT_TOKEN")) as [t1|];
    [|simpl; unfold count; simpl; lia].
  destruct (nonempty (environ w !! "SLACK_SIGNING_SECRET")) as [t2|];
    [|simpl; unfold count; simpl; lia].
  destruct (slack_App w t1 t2) as [[]|e1] eqn:A1;
    [|simpl; unfold count; simpl; lia].
  destruct (nonempty (environ w !! "JIRA_EMAIL")) as [t3|];
    [|simpl; unfold count; simpl; lia].
  destruct (nonempty (environ w !! "JIRA_API_TOKEN")) as [t4|];
    [|simpl; unfold count; simpl; lia].
  destruct (jira_JIRA w (jira_url cfg) t3 t4) as [[]|e2] eqn:A2;
    [|simpl; unfold count; simpl; lia].
  destruct (nonempty (environ w !! "ANTHROPIC_API_KEY")) as [t5|];
    [|simpl; unfold count; simpl; lia].
  destruct (anthropic_Anthropic w t5) as [[]|e3] eqn:A3;
    [|simpl; unfold count; simpl; lia].
  destruct (nonempty (environ w !! "SLACK_APP_TOKEN")) as [t6|];
    [|simpl; unfold count; simpl; lia].
  intros _. exists t1, t2, t3, t4, t5, t6.
  repeat (split; [reflexivity || assumption|]).
  destruct (socket_mode_start w t6) as [[]|e]; split; reflexivity.
Qed.

Lemma X20_socket_mode_needs_all_clients_witness :
  ∃ bot_token signing_secret email api_token api_key app_token,
    nonempty (environ world_sure !! "SLACK_BOT_TOKEN") = Some bot_token
    ∧ nonempty (environ world_sure !! "SLACK_SIGNING_SECRET")
      = Some signing_secret
    ∧ nonempty (environ world_sure !! "JIRA_EMAIL") = Some email
    ∧ nonempty (environ world_sure !! "JIRA_API_TOKEN") = Some api_token
    ∧ nonempty (environ world_sure !! "ANTHROPIC_API_KEY") = Some api_key
    ∧ nonempty (environ world_sure !! "SLACK_APP_TOKEN") = Some app_token
    ∧ slack_App world_sure bot_token signing_secret = Ok tt
    ∧ jira_JIRA world_sure (jira_url sample_config) email api_token = Ok tt
    ∧ anthropic_Anthropic world_sure api_key = Ok tt
    ∧ calls_of (effects (main world_sure sample_config))
      = [SlackApp bot_token signing_secret;
         JiraConnect (jira_url sample_config) email api_token;
         AnthropicClient api_key;
         SocketModeStart app_token]
    ∧ outcome (main world_sure sample_config)
      = socket_mode_start world_sure app_token.
Proof.
  refine (X20_socket_mode_needs_all_clients world_sure sample_config _).
  vm_compute. lia.
Defined.

(** X21.  [main] logs a fatal error exactly when start-up fails.  When it
    returns normally it has written no error line at all; when it raises [e],
    [e] is the error that [__init__] or [start] raised, and the one error
    line, the last thing [main] does, is [Fatal error: e]. *)
Theorem X21_fatal_error_logged_and_reraised (w : World) (cfg : Config) :
  match outcome (main w cfg) with
  | Ok _ => count is_error_log (effects (main w cfg)) = 0%nat
  | Raise e =>
      outcome (__init__ w cfg;; start w) = Raise e
      ∧ count is_error_log (effects (main w cfg)) = 1%nat
      ∧ List.last (effects (main w cfg)) (Logged DEBUG "")
        = Logged ERROR ("Fatal error: " +:+ str_exn e)
  end.
Proof.
  unfold main, __init__, start, _init_slack, _init_jira, _init_anthropic.
  destruct (nonempty (environ w !! "SLACK_BOT_TOKEN")) as [t1|];
    [|repeat split; reflexivity].
  destruct (nonempty (environ w !! "SLACK_SIGNING_SECRET")) as [t2|];
    [|repeat split; reflexivity].
  destruct (slack_App w t1 t2) as [[]|e1]; [|repeat split; reflexivity].
  destruct (nonempty (environ w !! "JIRA_EMAIL")) as [t3|];
    [|repeat split; reflexivity].
  destruct (nonempty (environ w !! "JIRA_API_TOKEN")) as [t4|];
    [|repeat split; reflexivity].
  destruct (jira_JIRA w (jira_url cfg) t3 t4) as [[]|e2];
    [|repeat split; reflexivity].
  destruct (nonempty (environ w !! "ANTHROPIC_API_KEY")) as [t5|];
    [|repeat split; reflexivity].
  destruct (anthropic_Anthropic w t5) as [[]|e3];
    [|repeat split; reflexivity].
  destruct (nonempty (environ w !! "SLACK_APP_TOKEN")) as [t6|];
    [|repeat split; reflexivity].
  destruct (socket_mode_start w t6) as [[]|e]; repeat split; reflexivity.
Qed.
